(** * python-rayhunter: the deserialisers and the HTTP client, embedded in Rocq

    The development follows the three source files of the package:
    - [system_stats.py]: [_size_str_to_int], [DiskStats], [MemoryStats],
      [SystemStats] and their [from_dict] constructors;
    - [manifest.py]: [QmdlManifestEntry], [QmdlManifest] and [from_dict];
    - [api.py]: the [RayhunterApi] client.

    Python values are dynamically typed, so JSON documents and dataclass
    fields are modelled by one type [value]; a [dict] is a [gmap string value].
    The [from_dict] methods assign into the dictionary they are given, so
    they are computations in a state-and-exception monad whose state is that
    dictionary.  The client methods run in the same monad over the state of
    the network and of the log.

    The built-ins that the package calls are modelled in the module [Py]:
    [str] methods, [int] and [float] of a string, [int] and [round] of a
    float, and float multiplication, with doubles as [spec_float] at
    precision 53.  Three things are left out: characters beyond code point
    255, the texts of the exceptions that the interpreter raises, and the
    interpreter's configurable cap on the length of integer literals. *)

From Stdlib Require Import ZArith String Ascii SpecFloat Lia List.
From Stdlib Require Import DecimalString DecimalZ DecimalPos.
From stdpp Require Import base gmap strings list.

Local Set Warnings "-register-all".
Local Open Scope string_scope.
Local Open Scope Z_scope.

(* ===================================================================== *)
(** * Exceptions and the two monads *)
(* ===================================================================== *)

(** The exception classes that the modelled code can raise.  The text of a
    [ValueError] is kept when the source builds it ([Some msg]); it is [None]
    for texts produced by the interpreter.  [HTTPError] keeps the status of
    the response it was raised for.  [RequestException] stands for whatever
    the transport raises (connection refused, time-out, undecodable JSON). *)
Inductive exception : Type :=
| ValueError (msg : option string)
| IndexError
| KeyError
| TypeError
| AttributeError
| OverflowError
| HTTPError (status : Z)
| RequestException (what : string).

Inductive result (A : Type) : Type :=
| Ok (a : A)
| Raise (e : exception).
Arguments Ok {A} a.
Arguments Raise {A} e.

Definition rbind {A B : Type} (r : result A) (k : A -> result B) : result B :=
  match r with
  | Ok a => k a
  | Raise e => Raise e
  end.

Notation "x <- e ;; k" := (rbind e (fun x => k))
  (at level 100, e at next level, right associativity).

Fixpoint mapM {A B : Type} (f : A -> result B) (l : list A) : result (list B) :=
  match l with
  | [] => Ok []
  | x :: l' => y <- f x ;; ys <- mapM f l' ;; Ok (y :: ys)
  end.

(** A computation over a mutable store [S] that may raise.  The store is
    returned in both cases: what was written before an exception stays
    written. *)
Definition M (S A : Type) : Type := S -> result A * S.

Definition ret {S A : Type} (a : A) : M S A := fun s => (Ok a, s).

Definition bind {S A B : Type} (m : M S A) (k : A -> M S B) : M S B :=
  fun s => match m s with
           | (Ok a, s') => k a s'
           | (Raise e, s') => (Raise e, s')
           end.

Definition lift {S A : Type} (r : result A) : M S A := fun s => (r, s).

Definition get {S : Type} : M S S := fun s => (Ok s, s).

Definition modify {S : Type} (f : S -> S) : M S unit := fun s => (Ok tt, f s).

Notation "x <~ e ;; k" := (bind e (fun x => k))
  (at level 100, e at next level, right associativity).
Notation "e ;;; k" := (bind e (fun _ => k))
  (at level 100, right associativity).

(** [for key in keys: body(key)] *)
Fixpoint for_each {S A : Type} (keys : list A) (body : A -> M S unit) : M S unit :=
  match keys with
  | [] => ret tt
  | k :: keys' => body k ;;; for_each keys' body
  end.

(* ===================================================================== *)
(** * Built-ins of Python used by the package *)
(* ===================================================================== *)

Module Py.

(** ** Strings

    A [str] is a [string]; a character is a code point below 256. *)

(** [s[-1]] *)
Fixpoint last_char (s : string) : option ascii :=
  match s with
  | EmptyString => None
  | String c EmptyString => Some c
  | String _ s' => last_char s'
  end.

Definition getitem_last (s : string) : result ascii :=
  match last_char s with
  | Some c => Ok c
  | None => Raise IndexError
  end.

Fixpoint char_in (c : ascii) (chars : string) : bool :=
  match chars with
  | EmptyString => false
  | String c' chars' => Ascii.eqb c c' || char_in c chars'
  end.

Definition is_empty (s : string) : bool :=
  match s with
  | EmptyString => true
  | String _ _ => false
  end.

(** [s.rstrip(chars)]: drops the longest suffix made of characters of
    [chars]. *)
Fixpoint rstrip (chars s : string) : string :=
  match s with
  | EmptyString => EmptyString
  | String c s' =>
      let r := rstrip chars s' in
      if is_empty r && char_in c chars then EmptyString else String c r
  end.

Fixpoint lstrip (chars s : string) : string :=
  match s with
  | EmptyString => EmptyString
  | String c s' => if char_in c chars then lstrip chars s' else s
  end.

(** The white space that [int] and [float] drop from both ends of their
    argument, among the code points below 256: TAB, LF, VT, FF, CR, SPACE,
    NEL and NBSP. *)
Definition whitespace : string :=
  String (ascii_of_nat 9) (String (ascii_of_nat 10) (String (ascii_of_nat 11)
  (String (ascii_of_nat 12) (String (ascii_of_nat 13) (String (ascii_of_nat 32)
  (String (ascii_of_nat 133) (String (ascii_of_nat 160) EmptyString))))))).

Definition strip (s : string) : string :=
  rstrip whitespace (lstrip whitespace s).

Definition is_digit (c : ascii) : bool :=
  let n := N_of_ascii c in (48 <=? n)%N && (n <=? 57)%N.

Definition digit_value (c : ascii) : Z := Z.of_N (N_of_ascii c) - 48.

Fixpoint all_digits (s : string) : bool :=
  match s with
  | EmptyString => true
  | String c s' => is_digit c && all_digits s'
  end.

(** Every character of [s] satisfies [P]. *)
Inductive chars_all (P : ascii -> bool) : string -> Prop :=
| chars_all_nil : chars_all P ""
| chars_all_cons c s : P c = true -> chars_all P s -> chars_all P (String c s).

(** The characters of a decimal number: digits and the point. *)
Definition decimal_char (c : ascii) : bool := is_digit c || Ascii.eqb c ".".

(** The number written by a string of decimal digits, most significant
    first, continuing from [acc]. *)
Fixpoint digits_value (acc : Z) (s : string) : Z :=
  match s with
  | EmptyString => acc
  | String c s' => digits_value (10 * acc + digit_value c) s'
  end.

(** The longest prefix of digits, and what follows it. *)
Fixpoint span_digits (s : string) : string * string :=
  match s with
  | EmptyString => (EmptyString, EmptyString)
  | String c s' =>
      if is_digit c
      then let '(ds, rest) := span_digits s' in (String c ds, rest)
      else (EmptyString, s)
  end.

(** Numeric literals may group digits with single underscores.  An
    underscore is accepted only between two digits; the accepted ones are
    removed.  [prev] is the character before the current one, if any. *)
Fixpoint drop_underscores (prev : option ascii) (s : string) : option string :=
  let after_digit := match prev with Some p => is_digit p | None => false end in
  let after_underscore :=
    match prev with Some p => Ascii.eqb p "_" | None => false end in
  match s with
  | EmptyString => if after_underscore then None else Some EmptyString
  | String c s' =>
      if Ascii.eqb c "_"
      then if after_digit then drop_underscores (Some c) s' else None
      else if after_underscore && negb (is_digit c) then None
      else option_map (String c) (drop_underscores (Some c) s')
  end.

(** An optional sign: [true] for minus. *)
Definition split_sign (s : string) : bool * string :=
  match s with
  | String "+" s' => (false, s')
  | String "-" s' => (true, s')
  | _ => (false, s)
  end.

(** ** [int(str)]

    Base ten: surrounding white space, an optional sign, then digits.  The
    interpreter's optional cap on the number of digits is not modelled. *)
Definition int_of_str (s : string) : result Z :=
  match drop_underscores None (strip s) with
  | None => Raise (ValueError None)
  | Some t =>
      let '(neg, ds) := split_sign t in
      if is_empty ds || negb (all_digits ds) then Raise (ValueError None)
      else Ok (if neg then - digits_value 0 ds else digits_value 0 ds)
  end.

(** ** Floats: IEEE 754 binary64, as [spec_float] with 53 bits of precision *)

Definition prec : Z := 53.
Definition emax : Z := 1024.

(** The double nearest to [(-1)^neg * p / q], ties to even, for [0 <= p] and
    [0 < q]: an integer quotient with enough bits and the position of the
    remainder, then one rounding. *)
Definition nearest_double (neg : bool) (p q : Z) : spec_float :=
  let '(m, e, l) := SFdiv_core_binary prec emax p 0 q 0 in
  binary_round_aux prec emax neg m e l.

Definition float_mul (x y : spec_float) : spec_float := SFmul prec emax x y.

(** [float(n)] for an [int]: the nearest double, [OverflowError] beyond the
    range. *)
Definition float_of_int (n : Z) : result spec_float :=
  match binary_normalize prec emax n 0 false with
  | S754_infinity _ => Raise OverflowError
  | x => Ok x
  end.

(** [x * n] with [x] a float and [n] an [int]: [n] is converted first. *)
Definition float_mul_int (x : spec_float) (n : Z) : result spec_float :=
  y <- float_of_int n ;; Ok (float_mul x y).

(** [int(x)] for a float: the integer part, towards zero. *)
Definition int_of_float (x : spec_float) : result Z :=
  match x with
  | S754_zero _ => Ok 0
  | S754_infinity _ => Raise OverflowError
  | S754_nan => Raise (ValueError None)
  | S754_finite neg m e =>
      let mag := if 0 <=? e then Z.pos m * 2 ^ e else Z.pos m / 2 ^ (- e) in
      Ok (if neg then - mag else mag)
  end.

(** [round(x)] for a float, without a number of digits: the nearest
    integer, ties to even. *)
Definition round (x : spec_float) : result Z :=
  match x with
  | S754_zero _ => Ok 0
  | S754_infinity _ => Raise OverflowError
  | S754_nan => Raise (ValueError None)
  | S754_finite neg m e =>
      let mag :=
        if 0 <=? e then Z.pos m * 2 ^ e
        else
          let q := Z.pos m / 2 ^ (- e) in
          let r := Z.pos m mod 2 ^ (- e) in
          match 2 * r ?= 2 ^ (- e) with
          | Lt => q
          | Gt => q + 1
          | Eq => if Z.even q then q else q + 1
          end in
      Ok (if neg then - mag else mag)
  end.

(** ** [float(str)] *)

Definition lower (c : ascii) : ascii :=
  let n := N_of_ascii c in
  if (65 <=? n)%N && (n <=? 90)%N then ascii_of_N (n + 32) else c.

Fixpoint lower_str (s : string) : string :=
  match s with
  | EmptyString => EmptyString
  | String c s' => String (lower c) (lower_str s')
  end.

(** The exponent part: empty, or [e] or [E], an optional sign and at least
    one digit. *)
Definition parse_exponent (s : string) : option Z :=
  match s with
  | EmptyString => Some 0
  | String c s' =>
      if Ascii.eqb (lower c) "e" then
        let '(neg, ds) := split_sign s' in
        if is_empty ds || negb (all_digits ds) then None
        else Some (if neg then - digits_value 0 ds else digits_value 0 ds)
      else None
  end.

(** An unsigned decimal literal: digits, an optional point followed by
    digits, with at least one digit in all, and an optional exponent.  The
    result is [(m, k, e)] for the number [m * 10^(e - k)]. *)
Definition parse_decimal (s : string) : option (Z * Z * Z) :=
  let '(ip, r1) := span_digits s in
  let '(fp, r2) :=
    match r1 with
    | String "." r => span_digits r
    | _ => (EmptyString, r1)
    end in
  if is_empty ip && is_empty fp then None
  else
    match parse_exponent r2 with
    | Some e => Some (digits_value 0 (ip +:+ fp), Z.of_nat (String.length fp), e)
    | None => None
    end.

Definition parse_inf_nan (neg : bool) (s : string) : option spec_float :=
  let t := lower_str s in
  if String.eqb t "inf" || String.eqb t "infinity" then Some (S754_infinity neg)
  else if String.eqb t "nan" then Some S754_nan
  else None.

Definition float_of_str (s : string) : result spec_float :=
  match drop_underscores None (strip s) with
  | None => Raise (ValueError None)
  | Some t =>
      let '(neg, u) := split_sign t in
      match parse_decimal u with
      | Some (m, k, e) =>
          Ok (nearest_double neg (m * 10 ^ Z.max 0 (e - k)) (10 ^ Z.max 0 (k - e)))
      | None =>
          match parse_inf_nan neg u with
          | Some x => Ok x
          | None => Raise (ValueError None)
          end
      end
  end.

(** [str(n)] for an [int], as an f-string prints it. *)
Definition str_of_int (n : Z) : string := NilZero.string_of_int (Z.to_int n).

End Py.

(* ===================================================================== *)
(** * Values *)
(* ===================================================================== *)

(** [manifest.py], [QmdlManifestEntry]: a dataclass of five fields.  A
    dataclass does not check the types of its fields, so each holds a value
    of the type [V] of Python values. *)
Record QmdlManifestEntryOf (V : Type) : Type := {
  name : V;
  start_time : V;
  last_message_time : V;
  qmdl_size_bytes : V;
  analysis_size_bytes : V
}.
Arguments name {V} _.
Arguments start_time {V} _.
Arguments last_message_time {V} _.
Arguments qmdl_size_bytes {V} _.
Arguments analysis_size_bytes {V} _.

(** What a decoded JSON document holds, and [VEntry] for the
    [QmdlManifestEntry] objects that [QmdlManifest.from_dict] stores into the
    dictionary it is given. *)
Inductive value : Type :=
| VNone
| VBool (b : bool)
| VInt (n : Z)
| VFloat (x : spec_float)
| VStr (s : string)
| VList (l : list value)
| VDict (d : gmap string value)
| VEntry (e : QmdlManifestEntryOf value).

Abbreviation QmdlManifestEntry := (QmdlManifestEntryOf value).
Abbreviation dict := (gmap string value).

(** [d[key]] *)
Definition getitem (key : string) : M dict value :=
  fun d => match d !! key with
           | Some v => (Ok v, d)
           | None => (Raise KeyError, d)
           end.

(** [d[key] = v] *)
Definition setitem (key : string) (v : value) : M dict unit :=
  modify (fun d => <[key := v]> d).

(** [f(outer[key])] for a method [f] that assigns into its argument: the
    object stored under [key] is the one [f] changes, so the change is seen
    through [outer].  Subscripting anything but a [dict] with a string fails
    with [TypeError]. *)
Definition on_item {A : Type} (key : string) (f : M dict A) : M dict A :=
  fun outer =>
    match outer !! key with
    | None => (Raise KeyError, outer)
    | Some (VDict inner) =>
        let '(r, inner') := f inner in (r, <[key := VDict inner']> outer)
    | Some _ => (Raise TypeError, outer)
    end.

(** [for x in v]: the elements of a list, the characters of a string, the
    keys of a dictionary.  (The keys come in the order of [map_to_list], not
    in insertion order.) *)
Fixpoint chars_of (s : string) : list value :=
  match s with
  | EmptyString => []
  | String c s' => VStr (String c EmptyString) :: chars_of s'
  end.

Definition iter (v : value) : result (list value) :=
  match v with
  | VList l => Ok l
  | VStr s => Ok (chars_of s)
  | VDict d => Ok (map (fun kv => VStr (fst kv)) (map_to_list d))
  | _ => Raise TypeError
  end.

(* ===================================================================== *)
(** * system_stats.py *)
(* ===================================================================== *)

Module system_stats.

(** [_size_str_to_int(size: str) -> int] *)
Definition _size_str_to_int (size : string) : result Z :=
  c <- Py.getitem_last size ;;
  if negb (Ascii.eqb c "M") then
    Raise (ValueError (Some ("Unsupported size suffix: " +:+ String c ""
                               +:+ " (" +:+ size +:+ ")")))
  else
    x <- Py.float_of_str (Py.rstrip "M" size) ;;
    y <- Py.float_mul_int x 1048576 ;;
    Py.int_of_float y.

(** The same body run on an argument that is not a [str], as happens when
    the JSON document holds another type under a size key.  A list is
    subscripted by [-1] and compared with ["M"]; it has no [rstrip], and
    the text of the [ValueError] would need [str] of arbitrary values, so
    it is left out.  A dictionary decoded from JSON has no key [-1].  The
    other types cannot be subscripted. *)
Definition _size_str_to_int_value (size : value) : result Z :=
  match size with
  | VStr s => _size_str_to_int s
  | VList l =>
      match last l with
      | None => Raise IndexError
      | Some (VStr "M") => Raise AttributeError
      | Some _ => Raise (ValueError None)
      end
  | VDict _ => Raise KeyError
  | _ => Raise TypeError
  end.

(** [int(v.rstrip("%"))]: only a [str] has [rstrip]. *)
Definition percent_to_int (v : value) : result Z :=
  match v with
  | VStr s => Py.int_of_str (Py.rstrip "%" s)
  | _ => Raise AttributeError
  end.

Record DiskStats : Type := {
  partition : value;
  total_size : value;
  used_size : value;
  available_size : value;
  used_percent : value;
  mounted_on : value
}.

(** [DiskStats] called with the keyword arguments [kw]: the generated
    [__init__] takes exactly the six field names as keywords; a missing or
    an unexpected one is a [TypeError]. *)
Definition DiskStats_init (kw : dict) : result DiskStats :=
  match kw !! "partition", kw !! "total_size", kw !! "used_size",
        kw !! "available_size", kw !! "used_percent", kw !! "mounted_on" with
  | Some p, Some t, Some u, Some a, Some pc, Some m =>
      if decide (size kw = 6%nat)
      then Ok {| partition := p; total_size := t; used_size := u;
                 available_size := a; used_percent := pc; mounted_on := m |}
      else Raise TypeError
  | _, _, _, _, _, _ => Raise TypeError
  end.

(** [DiskStats.from_dict(disk_stats)] *)
Definition DiskStats_from_dict : M dict DiskStats :=
  for_each ["total_size"; "used_size"; "available_size"] (fun size_key =>
    v <~ getitem size_key ;;
    n <~ lift (_size_str_to_int_value v) ;;
    setitem size_key (VInt n)) ;;;
  v <~ getitem "used_percent" ;;
  n <~ lift (percent_to_int v) ;;
  setitem "used_percent" (VInt n) ;;;
  disk_stats <~ get ;;
  lift (DiskStats_init disk_stats).

Record MemoryStats : Type := {
  total : value;
  used : value;
  free : value
}.

Definition MemoryStats_init (kw : dict) : result MemoryStats :=
  match kw !! "total", kw !! "used", kw !! "free" with
  | Some t, Some u, Some f =>
      if decide (size kw = 3%nat)
      then Ok {| total := t; used := u; free := f |}
      else Raise TypeError
  | _, _, _ => Raise TypeError
  end.

(** [MemoryStats.from_dict(memory_stats)] *)
Definition MemoryStats_from_dict : M dict MemoryStats :=
  for_each ["total"; "used"; "free"] (fun key =>
    v <~ getitem key ;;
    n <~ lift (_size_str_to_int_value v) ;;
    setitem key (VInt n)) ;;;
  memory_stats <~ get ;;
  lift (MemoryStats_init memory_stats).

Record SystemStats : Type := {
  disk_stats : DiskStats;
  memory_stats : MemoryStats
}.

(** [SystemStats.from_dict(system_stats)]: the two keyword arguments are
    evaluated from left to right. *)
Definition SystemStats_from_dict : M dict SystemStats :=
  ds <~ on_item "disk_stats" DiskStats_from_dict ;;
  ms <~ on_item "memory_stats" MemoryStats_from_dict ;;
  ret {| disk_stats := ds; memory_stats := ms |}.

End system_stats.

(* ===================================================================== *)
(** * manifest.py *)
(* ===================================================================== *)

Module manifest.

(** [QmdlManifestEntry] called with the keyword arguments [kw] *)
Definition QmdlManifestEntry_init (kw : dict) : result QmdlManifestEntry :=
  match kw !! "name", kw !! "start_time", kw !! "last_message_time",
        kw !! "qmdl_size_bytes", kw !! "analysis_size_bytes" with
  | Some n, Some s, Some l, Some q, Some a =>
      if decide (size kw = 5%nat)
      then Ok {| name := n; start_time := s; last_message_time := l;
                 qmdl_size_bytes := q; analysis_size_bytes := a |}
      else Raise TypeError
  | _, _, _, _, _ => Raise TypeError
  end.

(** [QmdlManifestEntry] called with [x] unpacked into keyword arguments:
    [x] must be a mapping. *)
Definition QmdlManifestEntry_kwargs (x : value) : result QmdlManifestEntry :=
  match x with
  | VDict kw => QmdlManifestEntry_init kw
  | _ => Raise TypeError
  end.

Record QmdlManifest : Type := {
  entries : value;
  current_entry : value
}.

Definition QmdlManifest_init (kw : dict) : result QmdlManifest :=
  match kw !! "entries", kw !! "current_entry" with
  | Some es, Some ce =>
      if decide (size kw = 2%nat)
      then Ok {| entries := es; current_entry := ce |}
      else Raise TypeError
  | _, _ => Raise TypeError
  end.

(** [x is not None] *)
Definition is_not_None (v : value) : bool :=
  match v with
  | VNone => false
  | _ => true
  end.

(** [QmdlManifest.from_dict(qmdl_manifest)] *)
Definition QmdlManifest_from_dict : M dict QmdlManifest :=
  v <~ getitem "entries" ;;
  xs <~ lift (iter v) ;;
  es <~ lift (mapM QmdlManifestEntry_kwargs xs) ;;
  setitem "entries" (VList (map VEntry es)) ;;;
  c <~ getitem "current_entry" ;;
  (if is_not_None c then
     c' <~ getitem "current_entry" ;;
     e <~ lift (QmdlManifestEntry_kwargs c') ;;
     setitem "current_entry" (VEntry e)
   else ret tt) ;;;
  qmdl_manifest <~ get ;;
  lift (QmdlManifest_init qmdl_manifest).

End manifest.

(* ===================================================================== *)
(** * api.py *)
(* ===================================================================== *)

Module api.

(** ** The [requests] library, as far as the client uses it *)

Inductive Request : Type :=
| GET (url : string) (stream : bool)
| POST (url : string).

(** A response: its status, what [json()] gives, the chunks that
    [iter_content] yields and the exception, if any, that ends the
    iteration early. *)
Record Response : Type := {
  status_code : Z;
  json : result value;
  iter_content : list (list Byte.byte);
  iter_error : option exception
}.

(** [Response.raise_for_status]: an [HTTPError] for the client errors
    (4xx) and the server errors (5xx), nothing for any other status. *)
Definition raise_for_status (r : Response) : result unit :=
  if (400 <=? status_code r) && (status_code r <? 600)
  then Raise (HTTPError (status_code r))
  else Ok tt.

(** [f(v)] for a method [f] written for a [dict], applied to a decoded
    JSON document that nobody else holds: the changes that [f] makes to it
    are lost with it.  Subscripting anything but a [dict] with a string
    fails with [TypeError]. *)
Definition call_on {A : Type} (f : M dict A) (v : value) : result A :=
  match v with
  | VDict d => fst (f d)
  | _ => Raise TypeError
  end.

(** [io.BytesIO()], [write] for each chunk, [seek(0)], [read()]. *)
Definition read_chunks (r : Response) : result (list Byte.byte) :=
  let file_content :=
    fold_left (fun buf chunk => (buf ++ chunk)%list) (iter_content r) [] in
  match iter_error r with
  | Some e => Raise e
  | None => Ok file_content
  end.

Record RayhunterApi : Type := { _url : string }.

(** [RayhunterApi.__init__] *)
Definition __init__ (hostname : string) (port : Z) : RayhunterApi :=
  {| _url := "http://" +:+ hostname +:+ ":" +:+ Py.str_of_int port +:+ "/" |}.

(** The calls a user of the client can make, and what each returns. *)
Inductive call : Type :=
| Active_recording
| Get_manifest
| Get_analysis_report_file (filename : string)
| Get_pcap_file (filename : string)
| Get_qmdl_file (filename : string)
| Start_recording
| Stop_recording
| System_stats.

Inductive returned : Type :=
| RBool (b : bool)
| RManifest (m : manifest.QmdlManifest)
| RBytes (content : list Byte.byte)
| RNone
| RStats (s : system_stats.SystemStats).

Section Client.

(** The network is a state [World] and a function [send] that answers a
    request, or raises, and moves the state on.  [urllib.parse.urljoin] is
    a parameter. *)
Variable World : Type.
Variable send : Request -> World -> result Response * World.
Variable urljoin : string -> string -> string.

(** What a call can change: the network, and the records handed to
    [logging.info]. *)
Record state : Type := { world : World; log : list string }.

Definition logging_info (msg : string) : M state unit :=
  modify (fun s => {| world := world s; log := (log s ++ [msg])%list |}).

Definition request (rq : Request) : M state Response :=
  fun s =>
    let '(r, w) := send rq (world s) in (r, {| world := w; log := log s |}).

Definition requests_get (url : string) (stream : bool) : M state Response :=
  request (GET url stream).

Definition requests_post (url : string) : M state Response :=
  request (POST url).

Definition _get_file_content (self : RayhunterApi) (api_endpoint : string)
  : M state (list Byte.byte) :=
  let file_url := urljoin (_url self) api_endpoint in
  logging_info ("Downloading file from: " +:+ file_url) ;;;
  response <~ requests_get file_url true ;;
  lift (raise_for_status response) ;;;
  lift (read_chunks response).

Definition get_manifest (self : RayhunterApi) : M state manifest.QmdlManifest :=
  let manifest_url := urljoin (_url self) "/api/qmdl-manifest" in
  logging_info ("Fetching manifest from: " +:+ manifest_url) ;;;
  response <~ requests_get manifest_url false ;;
  lift (raise_for_status response) ;;;
  body <~ lift (json response) ;;
  lift (call_on manifest.QmdlManifest_from_dict body).

Definition active_recording (self : RayhunterApi) : M state bool :=
  manifest <~ get_manifest self ;;
  ret (manifest.is_not_None (manifest.current_entry manifest)).

Definition get_analysis_report_file (self : RayhunterApi) (filename : string)
  : M state (list Byte.byte) :=
  logging_info ("Fetching analysis report for capture: " +:+ filename) ;;;
  let api_endpoint := "/api/analysis-report/" +:+ filename in
  _get_file_content self api_endpoint.

Definition get_pcap_file (self : RayhunterApi) (filename : string)
  : M state (list Byte.byte) :=
  logging_info ("Fetching PCAP file for capture: " +:+ filename) ;;;
  let api_endpoint := "/api/pcap/" +:+ filename in
  _get_file_content self api_endpoint.

Definition get_qmdl_file (self : RayhunterApi) (filename : string)
  : M state (list Byte.byte) :=
  logging_info ("Fetching QDML file for capture: " +:+ filename) ;;;
  let api_endpoint := "/api/qmdl/" +:+ filename in
  _get_file_content self api_endpoint.

Definition start_recording (self : RayhunterApi) : M state unit :=
  let start_recording_url := urljoin (_url self) "/api/start-recording" in
  logging_info ("Starting recording with POST request to: "
                  +:+ start_recording_url) ;;;
  response <~ requests_post start_recording_url ;;
  lift (raise_for_status response).

Definition stop_recording (self : RayhunterApi) : M state unit :=
  let stop_recording_url := urljoin (_url self) "/api/stop-recording" in
  logging_info ("Stopping recording with POST request to: "
                  +:+ stop_recording_url) ;;;
  response <~ requests_post stop_recording_url ;;
  lift (raise_for_status response).

Definition system_stats (self : RayhunterApi) : M state system_stats.SystemStats :=
  let system_stats_url := urljoin (_url self) "/api/system-stats" in
  logging_info ("Fetching system stats from: " +:+ system_stats_url) ;;;
  response <~ requests_get system_stats_url false ;;
  lift (raise_for_status response) ;;;
  body <~ lift (json response) ;;
  lift (call_on system_stats.SystemStats_from_dict body).

(** One entry point for all the calls. *)
Definition fmapM {A B : Type} (f : A -> B) (m : M state A) : M state B :=
  a <~ m ;; ret (f a).

Definition run (self : RayhunterApi) (c : call) : M state returned :=
  match c with
  | Active_recording => fmapM RBool (active_recording self)
  | Get_manifest => fmapM RManifest (get_manifest self)
  | Get_analysis_report_file f => fmapM RBytes (get_analysis_report_file self f)
  | Get_pcap_file f => fmapM RBytes (get_pcap_file self f)
  | Get_qmdl_file f => fmapM RBytes (get_qmdl_file self f)
  | Start_recording => fmapM (fun _ => RNone) (start_recording self)
  | Stop_recording => fmapM (fun _ => RNone) (stop_recording self)
  | System_stats => fmapM RStats (system_stats self)
  end.

(** The one request that a call sends. *)
Definition request_of (self : RayhunterApi) (c : call) : Request :=
  match c with
  | Active_recording | Get_manifest =>
      GET (urljoin (_url self) "/api/qmdl-manifest") false
  | Get_analysis_report_file f =>
      GET (urljoin (_url self) ("/api/analysis-report/" +:+ f)) true
  | Get_pcap_file f => GET (urljoin (_url self) ("/api/pcap/" +:+ f)) true
  | Get_qmdl_file f => GET (urljoin (_url self) ("/api/qmdl/" +:+ f)) true
  | Start_recording => POST (urljoin (_url self) "/api/start-recording")
  | Stop_recording => POST (urljoin (_url self) "/api/stop-recording")
  | System_stats => GET (urljoin (_url self) "/api/system-stats") false
  end.

End Client.

Arguments world {World} _.
Arguments log {World} _.

End api.

(* ===================================================================== *)
(** * Vocabulary of the specification *)
(* ===================================================================== *)

Module Spec.

(** [decimal_number s m k]: [s] is a decimal number, that is digits, or
    digits around one point, with at least one digit; it denotes
    [m / 10^k]. *)
Inductive decimal_number : string -> Z -> Z -> Prop :=
| decimal_integer (ip : string) :
    Py.all_digits ip = true -> ip <> "" ->
    decimal_number ip (Py.digits_value 0 ip) 0
| decimal_point (ip fp : string) :
    Py.all_digits ip = true -> Py.all_digits fp = true ->
    ip <> "" \/ fp <> "" ->
    decimal_number (ip +:+ "." +:+ fp) (Py.digits_value 0 (ip +:+ fp))
      (Z.of_nat (String.length fp)).

(** [int(float(prefix) * 1048576)], as the specification writes the result
    of the size conversion. *)
Definition int_float_times_1048576 (prefix : string) : result Z :=
  x <- Py.float_of_str prefix ;;
  y <- Py.float_mul_int x 1048576 ;;
  Py.int_of_float y.

(** [round(float(prefix) * 1048576)], as the testable properties write it. *)
Definition round_float_times_1048576 (prefix : string) : result Z :=
  x <- Py.float_of_str prefix ;;
  y <- Py.float_mul_int x 1048576 ;;
  Py.round y.

(** The double [1048576.0]. *)
Definition mebi : spec_float := S754_finite false 4503599627370496 (-32).

(** Zero, finite or infinite, and not negative. *)
Definition not_negative (x : spec_float) : Prop :=
  match x with
  | S754_zero false | S754_infinity false | S754_finite false _ _ => True
  | _ => False
  end.

(** The integer part of [x * 2^k], in exact arithmetic, for a double [x]
    that is zero or positive. *)
Definition floor_scaled (x : spec_float) (k : Z) : Z :=
  match x with
  | S754_finite false m e =>
      if 0 <=? e + k then Z.pos m * 2 ^ (e + k) else Z.pos m / 2 ^ (- (e + k))
  | _ => 0
  end.

(** A float that is zero or finite and not negative, with the two integers
    that bracket it: [lo <= x < lo + 1], and [x - lo] compared with one
    half. *)
Inductive brackets : spec_float -> Z -> comparison -> Prop :=
| brackets_zero : brackets (S754_zero false) 0 Lt
| brackets_integer (m : positive) (e : Z) :
    0 <= e -> brackets (S754_finite false m e) (Z.pos m * 2 ^ e) Lt
| brackets_fraction (m : positive) (e lo : Z) :
    e < 0 ->
    lo * 2 ^ (- e) <= Z.pos m < (lo + 1) * 2 ^ (- e) ->
    brackets (S754_finite false m e) lo
      (2 * (Z.pos m - lo * 2 ^ (- e)) ?= 2 ^ (- e)).


(** A status in the success class 2xx. *)
Definition is_2xx (status : Z) : bool := (200 <=? status) && (status <? 300).

(** The network answers the request [rq], sent in the state [w], with a
    response that [raise_for_status] lets through and whose decoded JSON
    body is [body]. *)
Definition serves {World : Type}
  (send : api.Request -> World -> result api.Response * World)
  (rq : api.Request) (w : World) (body : value) : Prop :=
  exists r w',
    send rq w = (Ok r, w') /\ api.raise_for_status r = Ok tt /\
    api.json r = Ok body.

(** The field names of [QmdlManifestEntry]. *)
Definition entry_keys : list string :=
  ["name"; "start_time"; "last_message_time"; "qmdl_size_bytes";
   "analysis_size_bytes"].

(** ** Example documents *)

Definition entry_dict (n s l q a : value) : dict :=
  <["name" := n]> (<["start_time" := s]> (<["last_message_time" := l]>
  (<["qmdl_size_bytes" := q]> (<["analysis_size_bytes" := a]> ∅)))).

Definition manifest_dict (es ce : value) : dict :=
  <["entries" := es]> (<["current_entry" := ce]> ∅).

Definition disk_dict (p t u a pc m : value) : dict :=
  <["partition" := p]> (<["total_size" := t]> (<["used_size" := u]>
  (<["available_size" := a]> (<["used_percent" := pc]>
  (<["mounted_on" := m]> ∅))))).

Definition memory_dict (t u f : value) : dict :=
  <["total" := t]> (<["used" := u]> (<["free" := f]> ∅)).

Definition example_disk : dict :=
  disk_dict (VStr "ubi0:usrfs") (VStr "214.7M") (VStr "17.5M")
    (VStr "197.2M") (VStr "8%") (VStr "/data").

Definition example_entry : dict :=
  entry_dict (VStr "1720000000") (VStr "2024-07-03T10:00:00Z")
    (VStr "2024-07-03T10:05:00Z") (VInt 4096) (VInt 512).

(** A manifest document that lists the capture in progress among the
    finished ones as well. *)
Definition duplicated_manifest : dict :=
  manifest_dict (VList [VDict example_entry]) (VDict example_entry).

(** A manifest document with a capture in progress and no finished one. *)
Definition recording_manifest : dict :=
  manifest_dict (VList []) (VDict example_entry).

(** A manifest document whose current entry lacks its fields. *)
Definition broken_manifest : dict :=
  manifest_dict (VList [VDict example_entry]) (VDict ∅).

(** A memory document whose second size has the wrong unit. *)
Definition kilobyte_memory : dict :=
  memory_dict (VStr "159.9M") (VStr "142.3K") (VStr "17.6M").

(** A disk document whose second size has the wrong unit. *)
Definition kilobyte_disk : dict :=
  disk_dict (VStr "ubi0:usrfs") (VStr "214.7M") (VStr "17.5K")
    (VStr "197.2M") (VStr "8%") (VStr "/data").

(** The document of an entry: the mapping of its five fields. *)
Definition entry_document (e : QmdlManifestEntry) : value :=
  VDict (entry_dict (name e) (start_time e) (last_message_time e)
           (qmdl_size_bytes e) (analysis_size_bytes e)).

(** The memory document of the docstrings. *)
Definition example_memory : dict :=
  memory_dict (VStr "159.9M") (VStr "142.3M") (VStr "17.6M").

(** The statistics document: the two parts under their keys. *)
Definition example_system : dict :=
  <["disk_stats" := VDict example_disk]>
    (<["memory_stats" := VDict example_memory]> ∅).

(** ** An example network: no state, one fixed answer to every request *)

Definition answer (status : Z) (body : result value) : api.Response :=
  {| api.status_code := status; api.json := body;
     api.iter_content := []; api.iter_error := None |}.

Definition always (r : api.Response)
  : api.Request -> unit -> result api.Response * unit :=
  fun _ w => (Ok r, w).

Definition join (base path : string) : string := Py.rstrip "/" base +:+ path.

Definition device : api.RayhunterApi := api.__init__ "192.168.1.1" 8080.

Definition start : api.state unit := {| api.world := tt; api.log := [] |}.

End Spec.

(* ===================================================================== *)
(** * The model at work *)
(* ===================================================================== *)

Section Examples.

Import Py system_stats.

(** The byte counts that the docstrings of [system_stats.py] give for
    214.7M, 17.5M, 159.9M, 142.3M and 17.6M.  The exact products for the
    last two are 149212364.8 and 18454937.6. *)
Example docstring_sizes :
  _size_str_to_int "214.7M" = Ok 225129267 /\
  _size_str_to_int "17.5M" = Ok 18350080 /\
  _size_str_to_int "159.9M" = Ok 167667302 /\
  _size_str_to_int "142.3M" = Ok 149212364 /\
  _size_str_to_int "17.6M" = Ok 18454937.
Proof. repeat split; by vm_compute. Qed.

(** [rstrip] takes every trailing [M], and [float] then reads what is
    left. *)
Example size_with_two_suffixes : _size_str_to_int "5MM" = Ok 5242880.
Proof. by vm_compute. Qed.

Example size_without_number :
  _size_str_to_int "M" = Raise (ValueError None).
Proof. by vm_compute. Qed.

(** [0.1] is [0x1.999999999999ap-4]. *)
Example float_of_one_tenth :
  float_of_str "0.1" = Ok (S754_finite false 7205759403792794 (-56)).
Proof. by vm_compute. Qed.

(** Rounding to nearest, ties to even: [2^53 + 1] and [2^53 + 3] lie half
    way between two doubles; so do the last two numbers that round to the
    least double and to zero, and the first that rounds to infinity. *)
Example float_of_str_rounding :
  float_of_str "9007199254740993" = Ok (S754_finite false 4503599627370496 1) /\
  float_of_str "9007199254740995" = Ok (S754_finite false 4503599627370498 1) /\
  float_of_str "1e23" = Ok (S754_finite false 5960464477539062 24) /\
  float_of_str "0.30000000000000004"
    = Ok (S754_finite false 5404319552844596 (-54)) /\
  float_of_str "5e-324" = Ok (S754_finite false 1 (-1074)) /\
  float_of_str "2.4703282292062328e-324" = Ok (S754_finite false 1 (-1074)) /\
  float_of_str "2.4703282292062327e-324" = Ok (S754_zero false) /\
  float_of_str "1.7976931348623157e308"
    = Ok (S754_finite false 9007199254740991 971) /\
  float_of_str "1.7976931348623159e308" = Ok (S754_infinity false).
Proof. repeat split; by vm_compute. Qed.

Example float_of_str_forms :
  float_of_str " 1_0.5e-1 " = float_of_str "1.05" /\
  float_of_str "5." = float_of_str "5" /\
  float_of_str ".5" = float_of_str "0.5" /\
  float_of_str "-Infinity" = Ok (S754_infinity true) /\
  float_of_str "1e400" = Ok (S754_infinity false) /\
  float_of_str "1e-400" = Ok (S754_zero false) /\
  float_of_str "1__0" = Raise (ValueError None) /\
  float_of_str "1e" = Raise (ValueError None) /\
  float_of_str "." = Raise (ValueError None) /\
  float_of_str "" = Raise (ValueError None) /\
  float_of_str (String (ascii_of_nat 160) "1.5") = float_of_str "1.5" /\
  float_of_str (String (ascii_of_nat 31) "1.5") = Raise (ValueError None).
Proof. repeat split; by vm_compute. Qed.

Example int_of_str_forms :
  int_of_str " -1_2 " = Ok (-12) /\
  int_of_str "007" = Ok 7 /\
  int_of_str "8" = Ok 8 /\
  int_of_str "" = Raise (ValueError None) /\
  int_of_str "1.5" = Raise (ValueError None).
Proof. repeat split; by vm_compute. Qed.

Example url_of_device : api._url Spec.device = "http://192.168.1.1:8080/".
Proof. by vm_compute. Qed.

(** The statistics document of the specification, through
    [SystemStats.from_dict]: the two inner dictionaries are converted in
    place. *)
Example system_stats_document :
  SystemStats_from_dict
    (<["disk_stats" := VDict Spec.example_disk]>
       (<["memory_stats" :=
            VDict (Spec.memory_dict (VStr "159.9M") (VStr "142.3M")
                     (VStr "17.6M"))]> ∅)) =
  (Ok {| disk_stats :=
           {| partition := VStr "ubi0:usrfs"; total_size := VInt 225129267;
              used_size := VInt 18350080; available_size := VInt 206779187;
              used_percent := VInt 8; mounted_on := VStr "/data" |};
         memory_stats :=
           {| total := VInt 167667302; used := VInt 149212364;
              free := VInt 18454937 |} |},
   <["disk_stats" :=
       VDict (Spec.disk_dict (VStr "ubi0:usrfs") (VInt 225129267)
                (VInt 18350080) (VInt 206779187) (VInt 8) (VStr "/data"))]>
     (<["memory_stats" :=
          VDict (Spec.memory_dict (VInt 167667302) (VInt 149212364)
                   (VInt 18454937))]> ∅)).
Proof. vm_compute. reflexivity. Qed.

End Examples.

(* ===================================================================== *)
(** * Strings: last character, stripping, digits *)
(* ===================================================================== *)

Section Strings.

Import Py.

Lemma chars_all_app P s t :
  chars_all P s -> chars_all P t -> chars_all P (s +:+ t).
Proof. induction 1; simpl; [done | intros; constructor; auto]. Qed.

Lemma chars_all_impl (P Q : ascii -> bool) s :
  (forall c, P c = true -> Q c = true) -> chars_all P s -> chars_all Q s.
Proof. intros HPQ. induction 1; constructor; auto. Qed.

Lemma all_digits_chars s : all_digits s = true <-> chars_all is_digit s.
Proof.
  split.
  - induction s as [|c s IH]; simpl; [constructor|].
    intros [Hc Hs]%andb_prop. constructor; auto.
  - induction 1 as [|c s Hc _ IH]; simpl; [done|]. by rewrite Hc, IH.
Qed.

Lemma last_char_snoc s c : last_char (s +:+ String c "") = Some c.
Proof.
  induction s as [|a s IH]; [done|].
  simpl. rewrite IH. by destruct (s +:+ String c "") eqn:E; [destruct s|].
Qed.

Lemma last_char_chars_all P s c :
  chars_all P s -> last_char s = Some c -> P c = true.
Proof.
  induction 1 as [|a s Ha Hs IH]; [done|].
  simpl. destruct s; [by intros [= <-] | auto].
Qed.

Lemma rstrip_snoc_in chars s c :
  char_in c chars = true -> rstrip chars (s +:+ String c "") = rstrip chars s.
Proof.
  intros Hc. induction s as [|a s IH]; simpl; [by rewrite Hc | by rewrite IH].
Qed.

Lemma rstrip_keeps chars s :
  (forall c, last_char s = Some c -> char_in c chars = false) ->
  rstrip chars s = s.
Proof.
  induction s as [|a s IH]; [done|].
  intros Hlast. simpl. destruct s as [|b s].
  - simpl. by rewrite (Hlast a eq_refl).
  - rewrite IH by (intros c Hc; by apply Hlast). done.
Qed.

Lemma lstrip_keeps chars s :
  (forall c t, s = String c t -> char_in c chars = false) ->
  lstrip chars s = s.
Proof.
  destruct s as [|a s]; [done|]. intros H. simpl. by rewrite (H a s eq_refl).
Qed.

Lemma decimal_char_facts c :
  decimal_char c = true ->
  char_in c whitespace = false /\ char_in c "M" = false /\
  Ascii.eqb c "_" = false /\ Ascii.eqb c "+" = false /\ Ascii.eqb c "-" = false.
Proof.
  destruct c as [[] [] [] [] [] [] [] []]; try discriminate; by repeat split.
Qed.

Lemma digit_facts c :
  is_digit c = true ->
  decimal_char c = true /\ char_in c "%" = false /\ Ascii.eqb c "." = false.
Proof.
  destruct c as [[] [] [] [] [] [] [] []]; try discriminate; by repeat split.
Qed.

Lemma strip_keeps s : chars_all decimal_char s -> strip s = s.
Proof.
  intros Hs. unfold strip. rewrite lstrip_keeps, rstrip_keeps; [done| |].
  - intros c Hc. by apply decimal_char_facts, (last_char_chars_all _ s).
  - intros c t ->. inversion Hs; subst. by apply decimal_char_facts.
Qed.

Lemma drop_underscores_keeps prev s :
  chars_all decimal_char s ->
  match prev with Some p => Ascii.eqb p "_" | None => false end = false ->
  drop_underscores prev s = Some s.
Proof.
  intros Hs. revert prev. induction Hs as [|c s Hc Hs IH]; intros prev Hprev.
  - simpl. by rewrite Hprev.
  - destruct (decimal_char_facts c Hc) as (_ & _ & Hu & _).
    simpl. rewrite Hu, Hprev. simpl. by rewrite IH.
Qed.

Lemma split_sign_keeps s :
  chars_all decimal_char s -> split_sign s = (false, s).
Proof.
  destruct 1 as [|c s Hc Hs]; [done|].
  destruct (decimal_char_facts c Hc) as (_ & _ & _ & Hp & Hm).
  destruct c as [[] [] [] [] [] [] [] []]; try done.
Qed.

Lemma span_digits_app ds rest :
  all_digits ds = true ->
  (forall c t, rest = String c t -> is_digit c = false) ->
  span_digits (ds +:+ rest) = (ds, rest).
Proof.
  intros Hds Hrest. induction ds as [|c ds IH]; simpl in *.
  - destruct rest as [|c t]; [done|]. simpl. by rewrite (Hrest c t eq_refl).
  - apply andb_prop in Hds as [Hc Hds]. by rewrite Hc, IH.
Qed.

Lemma span_digits_all ds : all_digits ds = true -> span_digits ds = (ds, "").
Proof.
  intros Hds. induction ds as [|c ds IH]; simpl in *; [done|].
  apply andb_prop in Hds as [Hc Hds]. by rewrite Hc, IH.
Qed.

Lemma is_empty_false s : s <> "" -> is_empty s = false.
Proof. by destruct s. Qed.

Lemma is_empty_app s t : is_empty (s +:+ t) = is_empty s && is_empty t.
Proof. by destruct s. Qed.

End Strings.

Lemma append_cons (x : ascii) (a b : string) :
  String x a +:+ b = String x (a +:+ b).
Proof. reflexivity. Qed.

Lemma append_assoc (a b c : string) : (a +:+ b) +:+ c = a +:+ (b +:+ c).
Proof.
  induction a as [|x a IH]; [done|]. by rewrite !append_cons, IH.
Qed.

Lemma append_nil_r (a : string) : a +:+ "" = a.
Proof. induction a as [|x a IH]; [done|]. by rewrite append_cons, IH. Qed.

(* ===================================================================== *)
(** * Floats: signs through rounding, integer part and nearest integer *)
(* ===================================================================== *)

Section Floats.

Import Py.

Lemma shr_1_nonneg mrs : 0 <= shr_m mrs -> 0 <= shr_m (shr_1 mrs).
Proof. destruct mrs as [[|[p|p|]|p] r s]; simpl; lia. Qed.

Lemma iter_pos_shr_1_nonneg p :
  forall mrs, 0 <= shr_m mrs -> 0 <= shr_m (SpecFloat.iter_pos shr_1 p mrs).
Proof.
  induction p as [p IH|p IH|]; intros mrs H; simpl.
  - by apply IH, IH, shr_1_nonneg.
  - by apply IH, IH.
  - by apply shr_1_nonneg.
Qed.

Lemma shr_fexp_nonneg m e l :
  0 <= m -> 0 <= shr_m (fst (shr_fexp prec emax m e l)).
Proof.
  intros Hm. unfold shr_fexp, shr.
  assert (0 <= shr_m (shr_record_of_loc m l)) by (by destruct l as [|[]]).
  destruct (fexp prec emax (Zdigits2 m + e) - e); simpl; try done.
  by apply iter_pos_shr_1_nonneg.
Qed.

Lemma round_nearest_even_nonneg m l : 0 <= m -> 0 <= round_nearest_even m l.
Proof. intros. destruct l as [|[]]; simpl; try lia. destruct (Z.even m); lia. Qed.

Lemma binary_round_aux_not_negative m e l :
  0 <= m -> Spec.not_negative (binary_round_aux prec emax false m e l).
Proof.
  intros Hm. unfold binary_round_aux.
  pose proof (shr_fexp_nonneg m e l Hm) as H1.
  destruct (shr_fexp prec emax m e l) as [mrs' e']. simpl in H1.
  pose proof (shr_fexp_nonneg _ e' loc_Exact
                (round_nearest_even_nonneg _ (loc_of_shr_record mrs') H1)) as H2.
  destruct (shr_fexp prec emax _ e' loc_Exact) as [mrs'' e'']. simpl in H2.
  destruct (shr_m mrs''); simpl; [done | by case_match | lia].
Qed.

Lemma nearest_double_not_negative p q :
  0 <= p -> 0 < q -> Spec.not_negative (nearest_double false p q).
Proof.
  intros Hp Hq. unfold nearest_double, SFdiv_core_binary.
  set (s := 0 - 0 - _). set (m' := match s with Z0 => _ | Zpos _ => _ | Zneg _ => _ end).
  assert (0 <= m') as Hm'.
  { subst m'. destruct s; [done | | done]. by apply Z.shiftl_nonneg. }
  pose proof (Z_div_mod m' q ltac:(lia)) as Hdiv.
  destruct (Z.div_eucl m' q) as [q0 r]. destruct Hdiv as [Heq Hr].
  apply binary_round_aux_not_negative. nia.
Qed.

Lemma float_of_int_mebi : float_of_int 1048576 = Ok Spec.mebi.
Proof. reflexivity. Qed.

Lemma float_mul_mebi_not_negative x :
  Spec.not_negative x -> Spec.not_negative (float_mul x Spec.mebi).
Proof.
  destruct x as [[]|[]| |[] m e]; simpl; try done. intros _.
  by apply binary_round_aux_not_negative.
Qed.

(** A float that is not negative is infinite or lies between two
    consecutive integers. *)
Lemma not_negative_brackets x :
  Spec.not_negative x ->
  x = S754_infinity false \/ exists lo c, Spec.brackets x lo c.
Proof.
  destruct x as [[]|[]| |[] m e]; simpl; try done; intros _.
  - right. eexists _, _. constructor.
  - by left.
  - right. destruct (Z_lt_le_dec e 0) as [He|He].
    + assert (0 < 2 ^ (- e)) as HB by (apply Z.pow_pos_nonneg; lia).
      pose proof (Z.div_mod (Z.pos m) (2 ^ (- e)) ltac:(lia)) as Hdm.
      pose proof (Z.mod_pos_bound (Z.pos m) (2 ^ (- e)) HB) as Hr.
      exists (Z.pos m / 2 ^ (- e)). eexists. constructor; [done | lia].
    + eexists _, _. by constructor.
Qed.

Lemma brackets_int_of_float x lo c :
  Spec.brackets x lo c -> int_of_float x = Ok lo.
Proof.
  destruct 1 as [|m e He|m e lo He Hlo]; simpl; [done| |].
  - by rewrite (proj2 (Z.leb_le 0 e) He).
  - rewrite (proj2 (Z.leb_gt 0 e) He). f_equal. symmetry.
    apply Z.div_unique with (r := Z.pos m - lo * 2 ^ (- e)); lia.
Qed.

Lemma brackets_round x lo c :
  Spec.brackets x lo c ->
  round x = Ok match c with
               | Lt => lo
               | Gt => lo + 1
               | Eq => if Z.even lo then lo else lo + 1
               end.
Proof.
  destruct 1 as [|m e He|m e lo He Hlo]; simpl; [done| |].
  - by rewrite (proj2 (Z.leb_le 0 e) He).
  - rewrite (proj2 (Z.leb_gt 0 e) He).
    assert (Z.pos m / 2 ^ (- e) = lo) as Hq.
    { symmetry. apply Z.div_unique with (r := Z.pos m - lo * 2 ^ (- e)); lia. }
    assert (Z.pos m mod 2 ^ (- e) = Z.pos m - lo * 2 ^ (- e)) as Hr.
    { symmetry. apply Z.mod_unique with (q := lo); lia. }
    by rewrite Hq, Hr.
Qed.

(** [float] of a decimal number never fails: it is the double nearest to
    the number. *)
Lemma float_of_str_decimal s m k :
  Spec.decimal_number s m k ->
  float_of_str s = Ok (nearest_double false m (10 ^ k)).
Proof.
  destruct 1 as [ip Hip Hne|ip fp Hip Hfp Hne]; unfold float_of_str.
  - assert (chars_all decimal_char ip) as Hall.
    { apply all_digits_chars in Hip.
      eapply chars_all_impl; [|done]. intros c Hc. by apply digit_facts. }
    rewrite strip_keeps, drop_underscores_keeps, split_sign_keeps by done.
    unfold parse_decimal. rewrite span_digits_all by done.
    rewrite is_empty_false by done. simpl.
    by rewrite append_nil_r, Z.mul_1_r.
  - assert (chars_all decimal_char (ip +:+ "." +:+ fp)) as Hall.
    { apply chars_all_app; [|change ("." +:+ fp) with (String "." fp);
                             constructor; [done|]].
      - apply all_digits_chars in Hip.
        eapply chars_all_impl; [|done]. intros c Hc. by apply digit_facts.
      - apply all_digits_chars in Hfp.
        eapply chars_all_impl; [|done]. intros c Hc. by apply digit_facts. }
    rewrite strip_keeps, drop_underscores_keeps, split_sign_keeps by done.
    change ("." +:+ fp) with (String "." fp).
    unfold parse_decimal. rewrite span_digits_app; [|done|by intros c t [= <- <-]].
    simpl. rewrite span_digits_all by done.
    assert (is_empty ip && is_empty fp = false) as ->.
    { destruct Hne as [H|H]; apply is_empty_false in H; rewrite H; [done|].
      by rewrite andb_false_r. }
    simpl. rewrite Z.sub_0_r.
    rewrite (Z.max_l 0 (0 - _)), (Z.max_r 0 (Z.of_nat _)) by lia.
    by rewrite Z.mul_1_r.
Qed.

Lemma decimal_number_chars s m k :
  Spec.decimal_number s m k -> chars_all decimal_char s /\ 0 <= m /\ 0 <= k.
Proof.
  assert (forall t acc, 0 <= acc -> all_digits t = true -> 0 <= digits_value acc t)
    as Hval.
  { induction t as [|c t IH]; simpl; [done|]. intros acc Hacc [Hc Ht]%andb_prop.
    apply IH; [|done]. unfold digit_value, is_digit in *.
    apply andb_prop in Hc as [Hc _]. apply N.leb_le in Hc. lia. }
  assert (forall t, all_digits t = true -> chars_all decimal_char t) as Hch.
  { intros t Ht%all_digits_chars.
    eapply chars_all_impl; [|done]. intros c Hc. by apply digit_facts. }
  destruct 1 as [ip Hip Hne|ip fp Hip Hfp Hne].
  - split; [auto|]. split; [by apply Hval | done].
  - split; [|split; [|lia]].
    + apply chars_all_app; [auto|].
      change ("." +:+ fp) with (String "." fp). constructor; [done | auto].
    + apply Hval; [done|]. apply all_digits_chars.
      apply chars_all_app; by apply all_digits_chars.
Qed.

End Floats.

(* ===================================================================== *)
(** * Floats: the range of a rounding, and products with a power of two *)
(* ===================================================================== *)

Section FloatRange.

Import Py.

Lemma digits2_pos_size p : digits2_pos p = Pos.size p.
Proof. induction p as [p IH|p IH|]; simpl; by rewrite ?IH. Qed.

Lemma Zdigits2_nonneg m : 0 <= Zdigits2 m.
Proof. destruct m; simpl; lia. Qed.

(** [m] has at most [Zdigits2 m] bits. *)
Lemma Zdigits2_gt m : 0 <= m -> m < 2 ^ Zdigits2 m.
Proof.
  destruct m as [|p|p]; simpl; [lia | | lia]. intros _.
  rewrite digits2_pos_size, <- Pos2Z.inj_pow. apply Pos2Z.pos_lt_pos, Pos.size_gt.
Qed.

Lemma Zdigits2_le m d : 0 <= m -> 0 <= d -> m < 2 ^ d -> Zdigits2 m <= d.
Proof.
  destruct m as [|p|p]; simpl; [lia | | lia]. intros _ Hd Hm.
  pose proof (Pos.size_le p) as Hsize.
  apply Pos2Z.pos_le_pos in Hsize. rewrite Pos2Z.inj_pow in Hsize.
  rewrite digits2_pos_size.
  assert (2 ^ Z.pos (Pos.size p) < 2 ^ (d + 1)) as Hlt.
  { rewrite Z.pow_add_r by lia. change (2 ^ 1) with 2.
    change (Z.pos p~0) with (2 * Z.pos p) in Hsize. lia. }
  apply Z.pow_lt_mono_r_iff in Hlt; lia.
Qed.

Lemma shr_1_div2 mrs : 0 <= shr_m mrs -> shr_m (shr_1 mrs) = shr_m mrs / 2.
Proof.
  destruct mrs as [[|[p|p|]|p] r s]; simpl; try done; intros _.
  - change (Z.pos p~1) with (2 * Z.pos p + 1).
    apply Z.div_unique with (r := 1); lia.
  - change (Z.pos p~0) with (2 * Z.pos p).
    apply Z.div_unique with (r := 0); lia.
Qed.

Lemma pow2_xO p : 2 ^ Z.pos p~0 = 2 ^ Z.pos p * 2 ^ Z.pos p.
Proof. rewrite <- Z.pow_add_r by lia. f_equal. lia. Qed.

Lemma pow2_xI p : 2 ^ Z.pos p~1 = 2 * (2 ^ Z.pos p * 2 ^ Z.pos p).
Proof.
  rewrite <- Z.pow_add_r by lia. rewrite <- (Z.pow_succ_r 2) by lia. f_equal. lia.
Qed.

Lemma iter_pos_shr_1_div p :
  forall mrs, 0 <= shr_m mrs ->
    shr_m (SpecFloat.iter_pos shr_1 p mrs) = shr_m mrs / 2 ^ Z.pos p.
Proof.
  induction p as [p IH|p IH|]; intros mrs H; simpl.
  - rewrite IH, IH, shr_1_div2 by auto using iter_pos_shr_1_nonneg, shr_1_nonneg.
    rewrite !Z.div_div by lia. by rewrite pow2_xI, Z.mul_assoc.
  - rewrite IH, IH by auto using iter_pos_shr_1_nonneg.
    rewrite !Z.div_div by lia. by rewrite pow2_xO.
  - by rewrite shr_1_div2.
Qed.

Lemma shr_m_record_of_loc m l : shr_m (shr_record_of_loc m l) = m.
Proof. by destruct l as [|[]]. Qed.

(** One alignment step: the mantissa keeps at most 53 bits, the exponent
    stays above the least one, and a number below [2^c] stays below it. *)
Lemma shr_fexp_bounded M E l c :
  0 <= M -> -1074 <= c <= 1024 -> Zdigits2 M + E <= c -> E <= 971 ->
  let M' := shr_m (fst (shr_fexp prec emax M E l)) in
  let E' := snd (shr_fexp prec emax M E l) in
  0 <= M' /\ Zdigits2 M' + E' <= c /\ E' <= 971 /\
  Zdigits2 M' <= 53 /\ -1074 <= E'.
Proof.
  intros HM Hc Hd HE. pose proof (Zdigits2_gt M HM) as Hgt.
  pose proof (Zdigits2_nonneg M) as Hd0.
  unfold shr_fexp, shr, fexp, emin, prec, emax.
  destruct (Z.max (Zdigits2 M + E - 53) (3 - 1024 - 53) - E) as [|p|p] eqn:Hn;
    simpl; rewrite ?shr_m_record_of_loc; [lia | | lia].
  rewrite iter_pos_shr_1_div by (by rewrite shr_m_record_of_loc).
  rewrite shr_m_record_of_loc.
  assert (0 < 2 ^ Z.pos p) as Hpow by (by apply Z.pow_pos_nonneg).
  split; [by apply Z.div_pos|].
  destruct (Z_lt_le_dec (Zdigits2 M) (Z.pos p)) as [Hsmall|Hlarge].
  - assert (M / 2 ^ Z.pos p = 0) as ->.
    { apply Z.div_small. split; [done|].
      eapply Z.lt_le_trans; [done|]. apply Z.pow_le_mono_r; lia. }
    simpl. lia.
  - assert (Zdigits2 (M / 2 ^ Z.pos p) <= Zdigits2 M - Z.pos p) as Hdiv.
    { apply Zdigits2_le; [by apply Z.div_pos | lia |].
      apply Z.div_lt_upper_bound; [done|].
      rewrite <- Z.pow_add_r by lia.
      by replace (Z.pos p + (Zdigits2 M - Z.pos p)) with (Zdigits2 M) by lia. }
    lia.
Qed.

Lemma round_nearest_even_bounds m l :
  m <= round_nearest_even m l <= m + 1.
Proof. destruct l as [|[]]; simpl; try lia. destruct (Z.even m); lia. Qed.

(** Rounding a number below [2^c], for [c] up to 1023, gives zero or a
    finite double below [2^(c+1)]. *)
Lemma binary_round_aux_bounded M E l c :
  0 <= M -> -1074 <= c <= 1023 -> Zdigits2 M + E <= c -> E <= 971 ->
  binary_round_aux prec emax false M E l = S754_zero false \/
  exists m e,
    binary_round_aux prec emax false M E l = S754_finite false m e /\
    Zdigits2 (Z.pos m) + e <= c + 1 /\ e <= 971 /\
    Zdigits2 (Z.pos m) <= 53 /\ -1074 <= e.
Proof.
  intros HM Hc Hd HE. unfold binary_round_aux.
  destruct (shr_fexp_bounded M E l c HM ltac:(lia) Hd HE)
    as (HM1 & Hd1 & HE1 & _ & _).
  destruct (shr_fexp prec emax M E l) as [mrs1 E1]. simpl in HM1, Hd1, HE1.
  pose proof (round_nearest_even_bounds (shr_m mrs1) (loc_of_shr_record mrs1))
    as Hrne.
  set (M1 := round_nearest_even (shr_m mrs1) (loc_of_shr_record mrs1)) in *.
  assert (Zdigits2 M1 + E1 <= c + 1) as Hd1'.
  { pose proof (Zdigits2_gt _ HM1) as Hgt.
    pose proof (Zdigits2_nonneg (shr_m mrs1)) as Hnn.
    assert (2 ^ Zdigits2 (shr_m mrs1) <= 2 ^ (c - E1)) as Hle
      by (apply Z.pow_le_mono_r; lia).
    assert (Zdigits2 M1 <= c - E1 + 1); [|lia].
    apply Zdigits2_le; [lia | lia |].
    rewrite Z.pow_add_r by lia. change (2 ^ 1) with 2. lia. }
  destruct (shr_fexp_bounded M1 E1 loc_Exact (c + 1) ltac:(lia) ltac:(lia) Hd1' HE1)
    as (HM2 & Hd2 & HE2 & Hp2 & Hm2).
  destruct (shr_fexp prec emax M1 E1 loc_Exact) as [mrs2 E2].
  simpl in HM2, Hd2, HE2, Hp2, Hm2.
  destruct (shr_m mrs2) as [|m|m]; [by left | | lia].
  right. exists m, E2. unfold emax, prec.
  by rewrite (proj2 (Z.leb_le E2 (1024 - 53)) ltac:(lia)).
Qed.

(** The double nearest to a quotient below [2^b], for [b] up to 1023, is
    zero or finite and below [2^(b+1)]. *)
Lemma nearest_double_bounded p q b :
  0 <= p -> 0 < q -> 0 <= b <= 1023 -> p < 2 ^ b * q ->
  nearest_double false p q = S754_zero false \/
  exists m e,
    nearest_double false p q = S754_finite false m e /\
    Zdigits2 (Z.pos m) + e <= b + 1 /\ e <= 971 /\
    Zdigits2 (Z.pos m) <= 53 /\ -1074 <= e.
Proof.
  intros Hp Hq Hb Hlt. unfold nearest_double, SFdiv_core_binary.
  set (e' := Z.min _ (0 - 0)).
  assert (e' <= 0) as He' by (subst e'; lia).
  set (m' := match 0 - 0 - e' with Z0 => _ | Zpos _ => _ | Zneg _ => _ end).
  assert (m' = p * 2 ^ (- e')) as Hm'.
  { subst m'. destruct (0 - 0 - e') as [|s|s] eqn:Hs; [| |lia].
    - replace (- e') with 0 by lia. lia.
    - rewrite Z.shiftl_mul_pow2 by lia. do 2 f_equal. lia. }
  clearbody m'. subst m'.
  assert (0 < 2 ^ (- e')) as Hpow by (apply Z.pow_pos_nonneg; lia).
  pose proof (Z_div_mod (p * 2 ^ (- e')) q ltac:(lia)) as Hdiv.
  destruct (Z.div_eucl (p * 2 ^ (- e')) q) as [q0 r]. destruct Hdiv as [Heq Hr].
  assert (0 <= q0) as Hq0 by nia.
  apply binary_round_aux_bounded; [done | lia | | lia].
  assert (Zdigits2 q0 <= b - e'); [|lia].
  apply Zdigits2_le; [done | lia |].
  replace (b - e') with (b + - e') by lia.
  rewrite Z.pow_add_r by lia. nia.
Qed.

Lemma Zdigits2_lower m : 0 < m -> 2 ^ (Zdigits2 m - 1) <= m.
Proof.
  destruct m as [|p|p]; simpl; [lia | | lia]. intros _.
  pose proof (Pos.size_le p) as Hsize.
  apply Pos2Z.pos_le_pos in Hsize. rewrite Pos2Z.inj_pow in Hsize.
  rewrite digits2_pos_size.
  change (Z.pos p~0) with (2 * Z.pos p) in Hsize.
  replace (Z.pos (Pos.size p)) with (Z.pos (Pos.size p) - 1 + 1) in Hsize by lia.
  rewrite Z.pow_add_r in Hsize by lia. change (2 ^ 1) with 2 in Hsize. lia.
Qed.

Lemma Zdigits2_mul_pow2 m k :
  0 < m -> 0 <= k -> Zdigits2 (m * 2 ^ k) = Zdigits2 m + k.
Proof.
  intros Hm Hk. pose proof (Zdigits2_nonneg m) as Hnn.
  pose proof (Zdigits2_gt m ltac:(lia)) as Hgt.
  pose proof (Zdigits2_lower m Hm) as Hlow.
  assert (0 < 2 ^ k) as Hpow by (by apply Z.pow_pos_nonneg).
  assert (0 < Zdigits2 m) as Hpos by (destruct m; simpl; lia).
  apply Z.le_antisymm.
  - apply Zdigits2_le; [nia | lia |]. rewrite Z.pow_add_r by lia. nia.
  - assert (2 ^ (Zdigits2 m + k - 1) < 2 ^ Zdigits2 (m * 2 ^ k)) as Hlt.
    { eapply Z.le_lt_trans; [|apply Zdigits2_gt; nia].
      replace (Zdigits2 m + k - 1) with (Zdigits2 m - 1 + k) by lia.
      rewrite Z.pow_add_r by lia. nia. }
    apply Z.pow_lt_mono_r_iff in Hlt; [lia | lia | apply Zdigits2_nonneg].
Qed.

Lemma shr_1_double a :
  0 <= a ->
  shr_1 {| shr_m := 2 * a; shr_r := false; shr_s := false |} =
    {| shr_m := a; shr_r := false; shr_s := false |}.
Proof. by destruct a. Qed.

(** Shifting out bits that are all zero is exact. *)
Lemma iter_pos_shr_1_exact p :
  forall a, 0 <= a ->
    SpecFloat.iter_pos shr_1 p
      {| shr_m := a * 2 ^ Z.pos p; shr_r := false; shr_s := false |} =
    {| shr_m := a; shr_r := false; shr_s := false |}.
Proof.
  induction p as [p IH|p IH|]; intros a Ha; cbn [SpecFloat.iter_pos].
  - rewrite pow2_xI.
    replace (a * (2 * (2 ^ Z.pos p * 2 ^ Z.pos p)))
      with (2 * (a * 2 ^ Z.pos p * 2 ^ Z.pos p)) by lia.
    rewrite shr_1_double by nia. rewrite IH by nia. by apply IH.
  - rewrite pow2_xO, Z.mul_assoc. rewrite IH by nia. by apply IH.
  - change (2 ^ 1) with 2. rewrite Z.mul_comm. by apply shr_1_double.
Qed.

Lemma shr_fexp_exact a k E :
  0 < a -> 0 <= k ->
  fexp prec emax (Zdigits2 a + k + E) - E = k ->
  shr_fexp prec emax (a * 2 ^ k) E loc_Exact =
    ({| shr_m := a; shr_r := false; shr_s := false |}, E + k).
Proof.
  intros Ha Hk Hfexp. unfold shr_fexp.
  rewrite Zdigits2_mul_pow2, Hfexp by done. unfold shr. simpl shr_record_of_loc.
  destruct k as [|p|p]; [|by rewrite iter_pos_shr_1_exact by lia | lia].
  by rewrite Z.mul_1_r, Z.add_0_r.
Qed.

Lemma shr_fexp_exact_0 a E :
  0 < a -> fexp prec emax (Zdigits2 a + E) - E = 0 ->
  shr_fexp prec emax a E loc_Exact =
    ({| shr_m := a; shr_r := false; shr_s := false |}, E).
Proof.
  intros Ha Hfexp. unfold shr_fexp. by rewrite Hfexp.
Qed.

(** The product of a double and 1048576 is the double with the same
    mantissa bits and the exponent twenty higher, unless it overflows: no
    rounding takes place, and its integer part is that of the exact
    product. *)
Lemma int_of_float_mul_mebi m e :
  Zdigits2 (Z.pos m) <= 53 -> -1074 <= e ->
  Zdigits2 (Z.pos m) + e <= 1004 ->
  int_of_float (float_mul (S754_finite false m e) Spec.mebi) =
    Ok (if 0 <=? e + 20 then Z.pos m * 2 ^ (e + 20)
        else Z.pos m / 2 ^ (- (e + 20))).
Proof.
  intros Hprec Hemin Hmax.
  assert (0 < Zdigits2 (Z.pos m)) as Hdpos by (simpl; lia).
  unfold float_mul, SFmul, Spec.mebi, binary_round_aux. simpl xorb.
  rewrite Pos2Z.inj_mul. change (Z.pos 4503599627370496) with (2 ^ 52).
  set (n := fexp prec emax (Zdigits2 (Z.pos m) + 52 + (e + -32)) - (e + -32)).
  assert (0 <= n <= 52) as Hn by (subst n; unfold fexp, emin, prec, emax; lia).
  assert (0 < 2 ^ (52 - n)) as Hpow by (apply Z.pow_pos_nonneg; lia).
  replace (Z.pos m * 2 ^ 52) with (Z.pos m * 2 ^ (52 - n) * 2 ^ n); last first.
  { rewrite <- Z.mul_assoc, <- Z.pow_add_r by lia. do 2 f_equal. lia. }
  rewrite shr_fexp_exact; [|nia|lia|]; last first.
  { rewrite Zdigits2_mul_pow2 by lia. subst n. f_equal. f_equal. lia. }
  cbv iota beta. cbn [shr_m loc_of_shr_record round_nearest_even].
  rewrite shr_fexp_exact_0; [|nia|]; last first.
  { rewrite Zdigits2_mul_pow2 by lia. subst n.
    unfold fexp, emin, prec, emax. lia. }
  cbv iota beta. cbn [shr_m].
  destruct (Z.pos m * 2 ^ (52 - n)) as [|M1|M1] eqn:HM1; [lia| |lia].
  unfold emax, prec.
  rewrite (proj2 (Z.leb_le (e + -32 + n) (1024 - 53)))
    by (subst n; unfold fexp, emin, prec, emax; lia).
  simpl int_of_float. f_equal. rewrite <- HM1.
  destruct (Z.leb_spec 0 (e + -32 + n)) as [He1|He1].
  - rewrite (proj2 (Z.leb_le 0 (e + 20))) by lia.
    rewrite <- Z.mul_assoc, <- Z.pow_add_r by lia. do 2 f_equal. lia.
  - destruct (Z.leb_spec 0 (e + 20)) as [He|He].
    + replace (52 - n) with (e + 20 + - (e + -32 + n)) by lia.
      rewrite Z.pow_add_r, Z.mul_assoc by lia.
      apply Z.div_mul. apply Z.pow_nonzero; lia.
    + replace (- (e + -32 + n)) with ((52 - n) + - (e + 20)) by lia.
      rewrite Z.pow_add_r by lia.
      rewrite (Z.mul_comm (2 ^ (52 - n)) (2 ^ (- (e + 20)))).
      rewrite Z.div_mul_cancel_r; [done | |]; apply Z.pow_nonzero; lia.
Qed.

End FloatRange.

(* ===================================================================== *)
(** * The size conversion *)
(* ===================================================================== *)

Section SizeConversion.

Import Py system_stats.

Lemma size_str_to_int_suffix_M s :
  _size_str_to_int (s +:+ "M") =
  (x <- float_of_str (rstrip "M" s) ;;
   y <- float_mul_int x 1048576 ;;
   int_of_float y).
Proof.
  unfold _size_str_to_int, getitem_last.
  rewrite last_char_snoc. simpl. by rewrite rstrip_snoc_in.
Qed.

Lemma rstrip_M_decimal s m k :
  Spec.decimal_number s m k -> rstrip "M" s = s.
Proof.
  intros [Hs _]%decimal_number_chars. apply rstrip_keeps.
  intros c Hc. by apply decimal_char_facts, (last_char_chars_all _ s).
Qed.

Lemma int_float_times_decimal s m k :
  Spec.decimal_number s m k ->
  Spec.int_float_times_1048576 s =
    int_of_float (float_mul (nearest_double false m (10 ^ k)) Spec.mebi).
Proof.
  intros H. unfold Spec.int_float_times_1048576.
  rewrite (float_of_str_decimal _ _ _ H). unfold float_mul_int.
  by rewrite float_of_int_mebi.
Qed.

(** Below [10^300] the size conversion does not overflow: it returns the
    integer part of the exact product of the double and 1048576. *)
Lemma int_float_times_in_range s m k :
  Spec.decimal_number s m k -> m < 10 ^ (k + 300) ->
  Spec.int_float_times_1048576 s =
    Ok (Spec.floor_scaled (nearest_double false m (10 ^ k)) 20).
Proof.
  intros H Hlt. rewrite (int_float_times_decimal _ _ _ H).
  destruct (decimal_number_chars _ _ _ H) as (_ & Hm & Hk).
  assert (0 < 10 ^ k) as Hpow by (by apply Z.pow_pos_nonneg).
  assert (10 ^ 300 < 2 ^ 1000) as Hbig by (by vm_compute).
  assert (m < 2 ^ 1000 * 10 ^ k) as Hlt'.
  { rewrite Z.pow_add_r in Hlt by lia. nia. }
  destruct (nearest_double_bounded m (10 ^ k) 1000 Hm Hpow ltac:(lia) Hlt')
    as [->|(mF & eF & -> & Hd & _ & Hp & He)]; [done|].
  rewrite int_of_float_mul_mebi by lia. done.
Qed.

Lemma size_conversion_decimal s m k :
  Spec.decimal_number s m k ->
  _size_str_to_int (s +:+ "M") = Spec.int_float_times_1048576 s.
Proof.
  intros H. rewrite size_str_to_int_suffix_M.
  by rewrite (rstrip_M_decimal _ _ _ H).
Qed.

(** C1.  For a decimal number [prefix], [float(prefix)] is a double (the
    nearest one) and [_size_str_to_int] of [prefix] followed by [M] is
    [int(float(prefix) * 1048576)]: the result of that expression when it
    has one, and the exception it raises otherwise.  For a number below
    [10^300] it has one: the product of that double and 1048576, which is
    exact, cut to its integer part. *)
Theorem size_str_to_int_megabytes (prefix : string) (m k : Z) :
  Spec.decimal_number prefix m k ->
  float_of_str prefix = Ok (nearest_double false m (10 ^ k)) /\
  _size_str_to_int (prefix +:+ "M") = Spec.int_float_times_1048576 prefix /\
  (m < 10 ^ (k + 300) ->
   _size_str_to_int (prefix +:+ "M") =
     Ok (Spec.floor_scaled (nearest_double false m (10 ^ k)) 20)).
Proof.
  intros H. split; [by apply float_of_str_decimal|].
  split; [by eapply size_conversion_decimal|].
  intros Hlt. rewrite (size_conversion_decimal _ _ _ H).
  by apply int_float_times_in_range.
Qed.

Lemma size_str_to_int_megabytes_witness :
  Spec.decimal_number "214.7" 2147 1 /\
  _size_str_to_int ("214.7" +:+ "M") = Ok 225129267.
Proof.
  assert (Spec.decimal_number "214.7" 2147 1) as H.
  { apply (Spec.decimal_point "214" "7"); [reflexivity | reflexivity |].
    left. discriminate. }
  split; [exact H|].
  destruct (size_str_to_int_megabytes "214.7" 2147 1 H) as (_ & _ & Hret).
  rewrite Hret; by vm_compute.
Defined.

(** The product of a decimal number, read as a double, and 1048576 is
    never negative and never a NaN. *)
Lemma product_not_negative m k :
  0 <= m -> 0 <= k ->
  Spec.not_negative (float_mul (nearest_double false m (10 ^ k)) Spec.mebi).
Proof.
  intros Hm Hk. apply float_mul_mebi_not_negative, nearest_double_not_negative.
  - done.
  - by apply Z.pow_pos_nonneg.
Qed.

(** C2, as the specification states it, fails: [0.1 * 1048576] is
    [104857.6], which the conversion cuts to [104857] and [round] takes to
    [104858]. *)
Lemma size_str_to_int_is_not_round :
  _size_str_to_int ("0" +:+ "." +:+ "1" +:+ "M") = Ok 104857 /\
  Spec.round_float_times_1048576 ("0" +:+ "." +:+ "1") = Ok 104858 /\
  _size_str_to_int ("0" +:+ "." +:+ "1" +:+ "M")
    <> Spec.round_float_times_1048576 ("0" +:+ "." +:+ "1").
Proof. split; [|split]; vm_compute; [reflexivity | reflexivity | discriminate]. Qed.

(** C2, amended.  For digits [d] and [f], let [x] be the double nearest to
    [d.f] times 1048576.  Either [x] is infinite, which needs [d.f] to be
    [10^300] or more, and the conversion of [d.fM] raises [OverflowError];
    or [x] lies between the integers [lo] and [lo + 1] and the conversion
    returns [lo]: the product cut towards zero.  [round] gives [lo] only
    when [x - lo] is below one half, or is one half with [lo] even; it gives
    [lo + 1] otherwise. *)
Theorem size_str_to_int_truncates (d f : string) :
  all_digits d = true -> all_digits f = true -> d <> "" -> f <> "" ->
  let x := float_mul
             (nearest_double false (digits_value 0 (d +:+ f))
                (10 ^ Z.of_nat (String.length f)))
             Spec.mebi in
  (x = S754_infinity false /\
   10 ^ (Z.of_nat (String.length f) + 300) <= digits_value 0 (d +:+ f) /\
   _size_str_to_int (d +:+ "." +:+ f +:+ "M") = Raise OverflowError) \/
  (exists lo c,
     Spec.brackets x lo c /\
     _size_str_to_int (d +:+ "." +:+ f +:+ "M") = Ok lo /\
     Spec.round_float_times_1048576 (d +:+ "." +:+ f) =
       Ok match c with
          | Lt => lo
          | Gt => lo + 1
          | Eq => if Z.even lo then lo else lo + 1
          end).
Proof.
  intros Hd Hf Hdne Hfne x.
  assert (Spec.decimal_number (d +:+ "." +:+ f) (digits_value 0 (d +:+ f))
            (Z.of_nat (String.length f))) as Hdec
    by (constructor; auto).
  pose proof (float_of_str_decimal _ _ _ Hdec) as Hfloat.
  pose proof (size_conversion_decimal _ _ _ Hdec) as Hconv.
  assert (_size_str_to_int (d +:+ "." +:+ f +:+ "M") = int_of_float x) as Hint.
  { replace (d +:+ "." +:+ f +:+ "M") with ((d +:+ "." +:+ f) +:+ "M")
      by (by rewrite !append_assoc).
    by rewrite Hconv, (int_float_times_decimal _ _ _ Hdec). }
  assert (Spec.round_float_times_1048576 (d +:+ "." +:+ f) = round x) as Hround.
  { unfold Spec.round_float_times_1048576.
    rewrite Hfloat. unfold float_mul_int. by rewrite float_of_int_mebi. }
  destruct (decimal_number_chars _ _ _ Hdec) as (_ & Hm & Hk).
  destruct (not_negative_brackets x (product_not_negative _ _ Hm Hk))
    as [Hinf|(lo & c & Hb)].
  - left. split; [done|]. split; [|by rewrite Hint, Hinf].
    apply Z.le_ngt. intros Hlt.
    pose proof (int_float_times_in_range _ _ _ Hdec Hlt) as Hok.
    rewrite (int_float_times_decimal _ _ _ Hdec) in Hok.
    fold x in Hok. by rewrite Hinf in Hok.
  - right. exists lo, c. split; [done|]. split.
    + by rewrite Hint, (brackets_int_of_float _ _ _ Hb).
    + by rewrite Hround, (brackets_round _ _ _ Hb).
Qed.

Lemma size_str_to_int_truncates_witness :
  exists lo c,
    Spec.brackets (float_mul (nearest_double false 1 10) Spec.mebi) lo c /\
    _size_str_to_int "0.1M" = Ok lo /\
    Spec.round_float_times_1048576 "0.1" =
      Ok match c with
         | Lt => lo
         | Gt => lo + 1
         | Eq => if Z.even lo then lo else lo + 1
         end.
Proof.
  destruct (size_str_to_int_truncates "0" "1" eq_refl eq_refl
              ltac:(discriminate) ltac:(discriminate))
    as [(Hinf & _)|H].
  - by vm_compute in Hinf.
  - exact H.
Defined.

(** C3.  A string that ends in a character other than [M] makes
    [_size_str_to_int] raise a [ValueError] whose text holds that character
    and the whole string.  The function has no store to write to; inside
    [DiskStats.from_dict], a first size that fails this way leaves the
    dictionary as it was. *)
Theorem size_str_to_int_bad_suffix (size : string) (c : ascii) :
  last_char size = Some c -> c <> "M"%char ->
  _size_str_to_int size =
    Raise (ValueError (Some ("Unsupported size suffix: " +:+ String c ""
                               +:+ " (" +:+ size +:+ ")"))) /\
  forall d : dict,
    d !! "total_size" = Some (VStr size) ->
    DiskStats_from_dict d =
      (Raise (ValueError (Some ("Unsupported size suffix: " +:+ String c ""
                                  +:+ " (" +:+ size +:+ ")"))), d).
Proof.
  intros Hlast Hc.
  assert (_size_str_to_int size =
            Raise (ValueError (Some ("Unsupported size suffix: " +:+ String c ""
                                       +:+ " (" +:+ size +:+ ")")))) as Hraise.
  { unfold _size_str_to_int, getitem_last. rewrite Hlast. simpl.
    by rewrite (proj2 (Ascii.eqb_neq c "M") Hc). }
  split; [done|]. intros d Hd.
  unfold DiskStats_from_dict, for_each, bind, getitem, lift. rewrite Hd.
  simpl. by rewrite Hraise.
Qed.

Lemma size_str_to_int_bad_suffix_witness :
  last_char "12K" = Some "K"%char /\ "K"%char <> "M"%char /\
  _size_str_to_int "12K" =
    Raise (ValueError (Some "Unsupported size suffix: K (12K)")).
Proof.
  split; [reflexivity|]. split; [discriminate|].
  exact (proj1 (size_str_to_int_bad_suffix "12K" "K" eq_refl ltac:(discriminate))).
Defined.

(** C10.  On the empty string [size[-1]] raises [IndexError] before the
    suffix is looked at: the outcome is not a [ValueError]. *)
Theorem size_str_to_int_empty :
  _size_str_to_int "" = Raise IndexError /\
  forall msg, _size_str_to_int "" <> Raise (ValueError msg).
Proof. split; [reflexivity | discriminate]. Qed.

End SizeConversion.

(* ===================================================================== *)
(** * Dictionaries: running the [from_dict] methods *)
(* ===================================================================== *)

(** Lookups through assignments to constant keys. *)
Ltac lookups :=
  repeat (rewrite lookup_insert_eq || rewrite lookup_insert_ne by done).

Section Dictionaries.

Import Py system_stats manifest.

Lemma size_insert_present (d : dict) (key : string) (v w : value) :
  d !! key = Some w -> size (<[key := v]> d) = size d.
Proof. intros H. apply map_size_insert_Some. by rewrite H. Qed.

(** A dictionary of [n] keys in which [n] given keys are present has no
    other key. *)
Lemma lookup_outside (keys : list string) :
  forall d : dict,
    NoDup keys -> size d = length keys ->
    (forall k, k ∈ keys -> is_Some (d !! k)) ->
    forall k, k ∉ keys -> d !! k = None.
Proof.
  induction keys as [|k0 keys IH]; intros d Hnd Hsize Hin k Hk.
  - apply map_size_empty_inv in Hsize. by rewrite Hsize.
  - apply NoDup_cons in Hnd as [Hk0 Hnd].
    assert (k0 ≠ k) as Hne by (intros ->; apply Hk; left).
    rewrite <- (lookup_delete_ne d k0 k) by done.
    apply IH; [done| | |].
    + rewrite map_size_delete_Some by (apply Hin; left).
      simpl in Hsize. lia.
    + intros k' Hk'. rewrite lookup_delete_ne by (intros ->; done).
      apply Hin. by right.
    + intros Hk'. apply Hk. by right.
Qed.

Lemma DiskStats_from_dict_run (d : dict) (ts us avs ps : value) (t u a p : Z) :
  d !! "total_size" = Some ts -> _size_str_to_int_value ts = Ok t ->
  d !! "used_size" = Some us -> _size_str_to_int_value us = Ok u ->
  d !! "available_size" = Some avs -> _size_str_to_int_value avs = Ok a ->
  d !! "used_percent" = Some ps -> percent_to_int ps = Ok p ->
  let d' := <["used_percent" := VInt p]> (<["available_size" := VInt a]>
            (<["used_size" := VInt u]> (<["total_size" := VInt t]> d))) in
  DiskStats_from_dict d = (DiskStats_init d', d').
Proof.
  intros Ht Ht' Hu Hu' Ha Ha' Hp Hp'.
  unfold DiskStats_from_dict, for_each, bind, getitem, setitem, lift, modify,
    ret, get.
  rewrite Ht, Ht'.
  rewrite lookup_insert_ne, Hu, Hu' by done.
  rewrite !lookup_insert_ne, Ha, Ha' by done.
  by rewrite !lookup_insert_ne, Hp, Hp' by done.
Qed.

Lemma DiskStats_from_dict_second_fails (d : dict) (ts us : value) (t : Z) e :
  d !! "total_size" = Some ts -> _size_str_to_int_value ts = Ok t ->
  d !! "used_size" = Some us -> _size_str_to_int_value us = Raise e ->
  DiskStats_from_dict d = (Raise e, <["total_size" := VInt t]> d).
Proof.
  intros Ht Ht' Hu Hu'.
  unfold DiskStats_from_dict, for_each, bind, getitem, setitem, lift, modify,
    ret, get.
  rewrite Ht, Ht'. by rewrite lookup_insert_ne, Hu, Hu' by done.
Qed.

Lemma MemoryStats_from_dict_run (d : dict) (ts us fs : value) (t u f : Z) :
  d !! "total" = Some ts -> _size_str_to_int_value ts = Ok t ->
  d !! "used" = Some us -> _size_str_to_int_value us = Ok u ->
  d !! "free" = Some fs -> _size_str_to_int_value fs = Ok f ->
  let d' := <["free" := VInt f]> (<["used" := VInt u]>
            (<["total" := VInt t]> d)) in
  MemoryStats_from_dict d = (MemoryStats_init d', d').
Proof.
  intros Ht Ht' Hu Hu' Hf Hf'.
  unfold MemoryStats_from_dict, for_each, bind, getitem, setitem, lift, modify,
    ret, get.
  rewrite Ht, Ht'.
  rewrite lookup_insert_ne, Hu, Hu' by done.
  by rewrite !lookup_insert_ne, Hf, Hf' by done.
Qed.

Lemma MemoryStats_from_dict_second_fails (d : dict) (ts us : value) (t : Z) e :
  d !! "total" = Some ts -> _size_str_to_int_value ts = Ok t ->
  d !! "used" = Some us -> _size_str_to_int_value us = Raise e ->
  MemoryStats_from_dict d = (Raise e, <["total" := VInt t]> d).
Proof.
  intros Ht Ht' Hu Hu'.
  unfold MemoryStats_from_dict, for_each, bind, getitem, setitem, lift, modify,
    ret, get.
  rewrite Ht, Ht'. by rewrite lookup_insert_ne, Hu, Hu' by done.
Qed.

Lemma manifest_run_none (d : dict) v xs es :
  d !! "entries" = Some v -> iter v = Ok xs ->
  mapM QmdlManifestEntry_kwargs xs = Ok es ->
  d !! "current_entry" = Some VNone ->
  let d' := <["entries" := VList (map VEntry es)]> d in
  QmdlManifest_from_dict d = (QmdlManifest_init d', d').
Proof.
  intros Hv Hxs Hes Hc.
  unfold QmdlManifest_from_dict, bind, getitem, setitem, lift, modify, ret, get.
  rewrite Hv, Hxs, Hes. by rewrite lookup_insert_ne, Hc by done.
Qed.

Lemma manifest_run_some (d : dict) v xs es c e :
  d !! "entries" = Some v -> iter v = Ok xs ->
  mapM QmdlManifestEntry_kwargs xs = Ok es ->
  d !! "current_entry" = Some c -> QmdlManifestEntry_kwargs c = Ok e ->
  let d' := <["current_entry" := VEntry e]>
            (<["entries" := VList (map VEntry es)]> d) in
  QmdlManifest_from_dict d = (QmdlManifest_init d', d').
Proof.
  intros Hv Hxs Hes Hc He.
  unfold QmdlManifest_from_dict, bind, getitem, setitem, lift, modify, ret, get.
  rewrite Hv, Hxs, Hes. rewrite lookup_insert_ne, Hc by done.
  assert (is_not_None c = true) as -> by (by destruct c).
  by rewrite lookup_insert_ne, Hc, He by done.
Qed.

Lemma manifest_current_fails (d : dict) v xs es c e :
  d !! "entries" = Some v -> iter v = Ok xs ->
  mapM QmdlManifestEntry_kwargs xs = Ok es ->
  d !! "current_entry" = Some c -> is_not_None c = true ->
  QmdlManifestEntry_kwargs c = Raise e ->
  QmdlManifest_from_dict d =
    (Raise e, <["entries" := VList (map VEntry es)]> d).
Proof.
  intros Hv Hxs Hes Hc Hnn He.
  unfold QmdlManifest_from_dict, bind, getitem, setitem, lift, modify, ret, get.
  rewrite Hv, Hxs, Hes. rewrite lookup_insert_ne, Hc, Hnn by done.
  by rewrite lookup_insert_ne, Hc, He by done.
Qed.

End Dictionaries.

(* ===================================================================== *)
(** * Printing and reading integers *)
(* ===================================================================== *)

Section Printing.

Import Py.

Lemma string_of_uint_digits d : all_digits (NilEmpty.string_of_uint d) = true.
Proof. induction d; simpl; done. Qed.

Lemma digits_value_of_uint_acc d :
  forall acc,
    digits_value (Z.pos acc) (NilEmpty.string_of_uint d) =
      Z.pos (Pos.of_uint_acc d acc).
Proof.
  induction d as [|d IH|d IH|d IH|d IH|d IH|d IH|d IH|d IH|d IH|d IH];
    intros acc; simpl; [done|..]; rewrite <- IH; f_equal;
    unfold digit_value; simpl; lia.
Qed.

Lemma digits_value_of_uint d :
  digits_value 0 (NilEmpty.string_of_uint d) = Z.of_uint d.
Proof.
  unfold Z.of_uint.
  induction d as [|d IH|d IH|d IH|d IH|d IH|d IH|d IH|d IH|d IH|d IH];
    simpl; [done | done | ..]; by rewrite <- digits_value_of_uint_acc.
Qed.

(** [str] of a natural number is its digits, and they denote it. *)
Lemma str_of_int_digits z :
  0 <= z ->
  all_digits (str_of_int z) = true /\ str_of_int z <> "" /\
  digits_value 0 (str_of_int z) = z.
Proof.
  intros Hz. unfold str_of_int. destruct z as [|p|p]; [done| |lia].
  simpl. pose proof (Unsigned.to_uint_nonnil p) as Hnil.
  pose proof (DecimalZ.of_to (Z.pos p)) as Hof. simpl in Hof.
  assert (NilZero.string_of_uint (Pos.to_uint p)
          = NilEmpty.string_of_uint (Pos.to_uint p)) as ->
    by (by destruct (Pos.to_uint p)).
  split; [apply string_of_uint_digits|].
  split; [by destruct (Pos.to_uint p) | by rewrite digits_value_of_uint].
Qed.

End Printing.

(* ===================================================================== *)
(** * system_stats.py: the statistics *)
(* ===================================================================== *)

Section Stats.

Import Py system_stats.








End Stats.

(* ===================================================================== *)
(** * manifest.py: the manifest *)
(* ===================================================================== *)

Section Manifest.

Import manifest.

Lemma QmdlManifest_init_fields kw m :
  QmdlManifest_init kw = Ok m ->
  kw !! "entries" = Some (entries m) /\
  kw !! "current_entry" = Some (current_entry m).
Proof.
  unfold QmdlManifest_init.
  destruct (kw !! "entries") as [es|], (kw !! "current_entry") as [ce|];
    try done.
  case_decide; [|done]. by intros [= <-].
Qed.

(** A mapping that [QmdlManifestEntry] accepts is the mapping of its five
    fields. *)
Lemma QmdlManifestEntry_init_inv kw e :
  QmdlManifestEntry_init kw = Ok e ->
  kw = Spec.entry_dict (name e) (start_time e) (last_message_time e)
         (qmdl_size_bytes e) (analysis_size_bytes e).
Proof.
  unfold QmdlManifestEntry_init.
  destruct (kw !! "name") as [n|] eqn:Hn; [|done].
  destruct (kw !! "start_time") as [s|] eqn:Hs; [|done].
  destruct (kw !! "last_message_time") as [l|] eqn:Hl; [|done].
  destruct (kw !! "qmdl_size_bytes") as [q|] eqn:Hq; [|done].
  destruct (kw !! "analysis_size_bytes") as [a|] eqn:Ha; [|done].
  case_decide as Hsize; [|done]. intros [= <-]. simpl.
  apply map_eq. intros k. unfold Spec.entry_dict.
  destruct (decide (k ∈ Spec.entry_keys)) as [Hin|Hout].
  - unfold Spec.entry_keys in Hin.
    repeat (apply elem_of_cons in Hin as [->|Hin]; [by lookups|]).
    by apply elem_of_nil in Hin.
  - rewrite (lookup_outside Spec.entry_keys kw); [| |done| |done].
    + unfold Spec.entry_keys in Hout.
      repeat (rewrite lookup_insert_ne
                by (intros <-; apply Hout; repeat constructor)).
      done.
    + apply (bool_decide_unpack _). by vm_compute.
    + intros k' Hk'. unfold Spec.entry_keys in Hk'.
      repeat (apply elem_of_cons in Hk' as [->|Hk']; [by eexists|]).
      by apply elem_of_nil in Hk'.
Qed.



End Manifest.

(* ===================================================================== *)
(** * api.py: the client *)
(* ===================================================================== *)

Section Calls.

Import api.

Variable World : Type.
Variable send : Request -> World -> result Response * World.
Variable urljoin : string -> string -> string.

Lemma get_manifest_serves self (s : state World) body :
  Spec.serves send (GET (urljoin (_url self) "/api/qmdl-manifest") false)
    (world s) body ->
  fst (get_manifest World send urljoin self s) =
    call_on manifest.QmdlManifest_from_dict body.
Proof.
  intros (r & w' & Hsend & Hstatus & Hjson).
  unfold get_manifest, bind, logging_info, modify, requests_get, request, lift.
  simpl. rewrite Hsend. simpl. by rewrite Hstatus, Hjson.
Qed.

Lemma active_recording_serves self (s : state World) body :
  Spec.serves send (GET (urljoin (_url self) "/api/qmdl-manifest") false)
    (world s) body ->
  fst (active_recording World send urljoin self s) =
    (m <- call_on manifest.QmdlManifest_from_dict body ;;
     Ok (manifest.is_not_None (manifest.current_entry m))).
Proof.
  intros H. apply get_manifest_serves in H.
  unfold active_recording, bind, ret.
  destruct (get_manifest World send urljoin self s) as [[m|e] s'];
    simpl in *; by rewrite <- H.
Qed.

(** A response that [raise_for_status] rejects ends every call: the
    exception comes out as it was raised, after the one request. *)
Lemma run_raise_for_status self c (s : state World) r w' e :
  send (request_of urljoin self c) (world s) = (Ok r, w') ->
  raise_for_status r = Raise e ->
  exists msgs,
    run World send urljoin self c s =
      (Raise e, {| world := w'; log := (log s ++ msgs)%list |}).
Proof.
  intros Hsend Hstatus.
  destruct c; simpl in Hsend;
    unfold run, fmapM, active_recording, get_manifest, get_analysis_report_file,
      get_pcap_file, get_qmdl_file, _get_file_content, start_recording,
      stop_recording, system_stats, bind, logging_info, modify, requests_get,
      requests_post, request, lift; simpl;
    rewrite Hsend; simpl; rewrite Hstatus;
    eexists; rewrite <- ?app_assoc; reflexivity.
Qed.

End Calls.

(** C5.  [QmdlManifest.from_dict] on [{"entries": [], "current_entry":
    None}] gives a manifest without entries and without a current entry, and
    [active_recording] is false on it.  On a mapping whose current entry is
    a mapping of exactly the five field names, it gives a manifest whose
    current entry is a [QmdlManifestEntry] holding the values of that
    mapping, and [active_recording] is true. *)
Theorem QmdlManifest_from_dict_current_entry :
  (fst (manifest.QmdlManifest_from_dict (Spec.manifest_dict (VList []) VNone)) =
     Ok {| manifest.entries := VList []; manifest.current_entry := VNone |} /\
   forall World send urljoin self (s : api.state World),
     Spec.serves send
       (api.GET (urljoin (api._url self) "/api/qmdl-manifest") false)
       (api.world s) (VDict (Spec.manifest_dict (VList []) VNone)) ->
     fst (api.active_recording World send urljoin self s) = Ok false) /\
  forall (d kw : dict) (xs : list value) (es : list QmdlManifestEntry)
         (n st l q a : value),
    size d = 2%nat ->
    d !! "entries" = Some (VList xs) ->
    mapM manifest.QmdlManifestEntry_kwargs xs = Ok es ->
    d !! "current_entry" = Some (VDict kw) ->
    size kw = 5%nat ->
    kw !! "name" = Some n -> kw !! "start_time" = Some st ->
    kw !! "last_message_time" = Some l -> kw !! "qmdl_size_bytes" = Some q ->
    kw !! "analysis_size_bytes" = Some a ->
    let m := {| manifest.entries := VList (map VEntry es);
                manifest.current_entry :=
                  VEntry {| name := n; start_time := st;
                            last_message_time := l; qmdl_size_bytes := q;
                            analysis_size_bytes := a |} |} in
    fst (manifest.QmdlManifest_from_dict d) = Ok m /\
    forall World send urljoin self (s : api.state World),
      Spec.serves send
        (api.GET (urljoin (api._url self) "/api/qmdl-manifest") false)
        (api.world s) (VDict d) ->
      fst (api.active_recording World send urljoin self s) = Ok true.
Proof.
  split; [split|].
  - by vm_compute.
  - intros World send urljoin self s H.
    rewrite (active_recording_serves _ _ _ _ _ _ H). by vm_compute.
  - intros d kw xs es n st l q a Hsize Hes Hmap Hce Hkw Hn Hst Hl Hq Ha m.
    assert (manifest.QmdlManifestEntry_kwargs (VDict kw) =
              Ok {| name := n; start_time := st; last_message_time := l;
                    qmdl_size_bytes := q; analysis_size_bytes := a |}) as Hentry.
    { simpl. unfold manifest.QmdlManifestEntry_init.
      rewrite Hn, Hst, Hl, Hq, Ha. by case_decide. }
    assert (fst (manifest.QmdlManifest_from_dict d) = Ok m) as Hm.
    { rewrite (manifest_run_some d _ _ _ _ _ Hes eq_refl Hmap Hce Hentry).
      simpl. unfold manifest.QmdlManifest_init. lookups.
      rewrite !size_insert_present with (w := VDict kw) by (by lookups).
      rewrite !size_insert_present with (w := VList xs) by done.
      rewrite Hsize. by case_decide. }
    split; [done|]. intros World send urljoin self s H.
    rewrite (active_recording_serves _ _ _ _ _ _ H). simpl. by rewrite Hm.
Qed.

Lemma QmdlManifest_from_dict_current_entry_witness :
  fst (manifest.QmdlManifest_from_dict Spec.recording_manifest) =
    Ok {| manifest.entries := VList [];
          manifest.current_entry :=
            VEntry {| name := VStr "1720000000";
                      start_time := VStr "2024-07-03T10:00:00Z";
                      last_message_time := VStr "2024-07-03T10:05:00Z";
                      qmdl_size_bytes := VInt 4096;
                      analysis_size_bytes := VInt 512 |} |} /\
  fst (api.active_recording unit
         (Spec.always (Spec.answer 200 (Ok (VDict Spec.recording_manifest))))
         Spec.join Spec.device Spec.start) = Ok true.
Proof.
  pose proof (proj2 QmdlManifest_from_dict_current_entry
                Spec.recording_manifest Spec.example_entry [] []
                (VStr "1720000000") (VStr "2024-07-03T10:00:00Z")
                (VStr "2024-07-03T10:05:00Z") (VInt 4096) (VInt 512)
                eq_refl eq_refl eq_refl eq_refl eq_refl eq_refl eq_refl
                eq_refl eq_refl eq_refl) as [Hm Hactive].
  split; [exact Hm|]. apply Hactive.
  eexists _, _. split; [reflexivity|]. split; reflexivity.
Defined.




(** C8, as the specification states it, fails: [raise_for_status] raises
    for the classes 4xx and 5xx only.  On a response with status 304, which
    is not a 2xx status, [start_recording] returns and [get_manifest]
    returns the manifest of the body. *)
Lemma status_304_is_let_through :
  Spec.is_2xx 304 = false /\
  fst (api.run unit
         (Spec.always (Spec.answer 304 (Ok (VDict Spec.recording_manifest))))
         Spec.join Spec.device api.Start_recording Spec.start) = Ok api.RNone /\
  exists m,
    fst (api.run unit
           (Spec.always (Spec.answer 304 (Ok (VDict Spec.recording_manifest))))
           Spec.join Spec.device api.Get_manifest Spec.start)
      = Ok (api.RManifest m).
Proof.
  split; [reflexivity|]. split; [by vm_compute|]. eexists. by vm_compute.
Qed.

(** C8, amended.  When the response to the request of a call has a status
    from 400 to 599, the call raises the [HTTPError] of
    [raise_for_status] for that response, unchanged, and returns nothing;
    the network is left as that one request left it.  For any other status
    [raise_for_status] raises nothing. *)
Theorem http_error_propagates
  (World : Type) (send : api.Request -> World -> result api.Response * World)
  (urljoin : string -> string -> string)
  (self : api.RayhunterApi) (c : api.call) (s : api.state World)
  (r : api.Response) (w' : World) :
  send (api.request_of urljoin self c) (api.world s) = (Ok r, w') ->
  (400 <= api.status_code r < 600 ->
   api.raise_for_status r = Raise (HTTPError (api.status_code r)) /\
   exists msgs,
     api.run World send urljoin self c s =
       (Raise (HTTPError (api.status_code r)),
        {| api.world := w'; api.log := (api.log s ++ msgs)%list |})) /\
  (api.status_code r < 400 \/ 600 <= api.status_code r ->
   api.raise_for_status r = Ok tt).
Proof.
  intros Hsend. split.
  - intros [Hlo Hhi].
    assert (api.raise_for_status r = Raise (HTTPError (api.status_code r)))
      as Hr.
    { unfold api.raise_for_status.
      by rewrite (proj2 (Z.leb_le _ _) Hlo), (proj2 (Z.ltb_lt _ _) Hhi). }
    split; [done|]. by eapply run_raise_for_status.
  - intros Hout. unfold api.raise_for_status.
    destruct Hout as [Hlo|Hhi].
    + by rewrite (proj2 (Z.leb_gt _ _) Hlo).
    + by rewrite (proj2 (Z.ltb_ge _ _) Hhi), andb_false_r.
Qed.

Lemma http_error_propagates_witness :
  fst (api.run unit
         (Spec.always
            (Spec.answer 500 (Raise (RequestException "JSONDecodeError"))))
         Spec.join Spec.device api.Stop_recording Spec.start)
    = Raise (HTTPError 500).
Proof.
  destruct (proj1 (http_error_propagates unit
              (Spec.always
                 (Spec.answer 500 (Raise (RequestException "JSONDecodeError"))))
              Spec.join Spec.device api.Stop_recording Spec.start
              (Spec.answer 500 (Raise (RequestException "JSONDecodeError"))) tt
              eq_refl) ltac:(simpl; lia)) as [_ [msgs ->]].
  reflexivity.
Defined.

(** C9.  Each [from_dict] assigns into the mapping it is given.
    [DiskStats.from_dict] and [MemoryStats.from_dict] leave the converted
    integers under the keys that held strings; [QmdlManifest.from_dict]
    leaves the entry objects under its two keys.  When a later field fails,
    the fields before it stay converted: the mapping is then neither
    the one that was given nor fully converted. *)
Theorem from_dict_assigns_into_its_argument :
  (forall (d : dict) ts us avs pc t u a p,
     d !! "total_size" = Some (VStr ts) -> system_stats._size_str_to_int ts = Ok t ->
     d !! "used_size" = Some (VStr us) -> system_stats._size_str_to_int us = Ok u ->
     d !! "available_size" = Some (VStr avs) ->
     system_stats._size_str_to_int avs = Ok a ->
     d !! "used_percent" = Some (VStr pc) ->
     Py.int_of_str (Py.rstrip "%" pc) = Ok p ->
     snd (system_stats.DiskStats_from_dict d) =
       <["used_percent" := VInt p]> (<["available_size" := VInt a]>
       (<["used_size" := VInt u]> (<["total_size" := VInt t]> d)))) /\
  (forall (d : dict) ts us t e,
     d !! "total_size" = Some (VStr ts) -> system_stats._size_str_to_int ts = Ok t ->
     d !! "used_size" = Some (VStr us) ->
     system_stats._size_str_to_int us = Raise e ->
     system_stats.DiskStats_from_dict d =
       (Raise e, <["total_size" := VInt t]> d) /\
     <["total_size" := VInt t]> d <> d) /\
  (forall (d : dict) ts us fs t u f,
     d !! "total" = Some (VStr ts) -> system_stats._size_str_to_int ts = Ok t ->
     d !! "used" = Some (VStr us) -> system_stats._size_str_to_int us = Ok u ->
     d !! "free" = Some (VStr fs) -> system_stats._size_str_to_int fs = Ok f ->
     snd (system_stats.MemoryStats_from_dict d) =
       <["free" := VInt f]> (<["used" := VInt u]> (<["total" := VInt t]> d))) /\
  (forall (d : dict) ts us t e,
     d !! "total" = Some (VStr ts) -> system_stats._size_str_to_int ts = Ok t ->
     d !! "used" = Some (VStr us) ->
     system_stats._size_str_to_int us = Raise e ->
     system_stats.MemoryStats_from_dict d =
       (Raise e, <["total" := VInt t]> d) /\
     <["total" := VInt t]> d <> d) /\
  (forall (d : dict) xs es c e,
     d !! "entries" = Some (VList xs) ->
     mapM manifest.QmdlManifestEntry_kwargs xs = Ok es ->
     d !! "current_entry" = Some c ->
     manifest.QmdlManifestEntry_kwargs c = Ok e ->
     snd (manifest.QmdlManifest_from_dict d) =
       <["current_entry" := VEntry e]>
         (<["entries" := VList (map VEntry es)]> d)) /\
  (forall (d : dict) x xs es c e,
     d !! "entries" = Some (VList (x :: xs)) ->
     mapM manifest.QmdlManifestEntry_kwargs (x :: xs) = Ok es ->
     d !! "current_entry" = Some c -> c <> VNone ->
     manifest.QmdlManifestEntry_kwargs c = Raise e ->
     manifest.QmdlManifest_from_dict d =
       (Raise e, <["entries" := VList (map VEntry es)]> d) /\
     <["entries" := VList (map VEntry es)]> d <> d).
Proof.
  assert (forall (d : dict) k v w, d !! k = Some v -> v <> w -> <[k := w]> d <> d)
    as Hchanged.
  { intros d k v w Hk Hne Heq. apply Hne.
    assert (<[k := w]> d !! k = Some v) as H by (by rewrite Heq).
    rewrite lookup_insert_eq in H. by injection H. }
  split; [|split; [|split; [|split; [|split]]]].
  - intros d ts us avs pc t u a p Ht Ht' Hu Hu' Ha Ha' Hp Hp'.
    by rewrite (DiskStats_from_dict_run d (VStr ts) (VStr us) (VStr avs) (VStr pc)
                  t u a p Ht Ht' Hu Hu' Ha Ha' Hp Hp').
  - intros d ts us t e Ht Ht' Hu Hu'. split.
    + by apply (DiskStats_from_dict_second_fails d (VStr ts) (VStr us)).
    + by apply (Hchanged d "total_size" (VStr ts)).
  - intros d ts us fs t u f Ht Ht' Hu Hu' Hf Hf'.
    by rewrite (MemoryStats_from_dict_run d (VStr ts) (VStr us) (VStr fs)
                  t u f Ht Ht' Hu Hu' Hf Hf').
  - intros d ts us t e Ht Ht' Hu Hu'. split.
    + by apply (MemoryStats_from_dict_second_fails d (VStr ts) (VStr us)).
    + by apply (Hchanged d "total" (VStr ts)).
  - intros d xs es c e Hxs Hes Hc He.
    by rewrite (manifest_run_some d (VList xs) xs es c e Hxs eq_refl Hes Hc He).
  - intros d x xs es c e Hxs Hes Hc Hnone He. split.
    + apply (manifest_current_fails d (VList (x :: xs)) (x :: xs) es c e);
        try done.
      by destruct c.
    + apply (Hchanged d "entries" (VList (x :: xs))); [done|].
      intros [= Heq]. destruct es as [|e' es]; [done|].
      injection Heq as -> _. by simpl in Hes.
Qed.

Lemma from_dict_assigns_into_its_argument_witness :
  system_stats.DiskStats_from_dict Spec.kilobyte_disk =
    (Raise (ValueError (Some "Unsupported size suffix: K (17.5K)")),
     <["total_size" := VInt 225129267]> Spec.kilobyte_disk) /\
  system_stats.MemoryStats_from_dict Spec.kilobyte_memory =
    (Raise (ValueError (Some "Unsupported size suffix: K (142.3K)")),
     <["total" := VInt 167667302]> Spec.kilobyte_memory) /\
  manifest.QmdlManifest_from_dict Spec.broken_manifest =
    (Raise TypeError,
     <["entries" := VList [VEntry {| name := VStr "1720000000";
                      start_time := VStr "2024-07-03T10:00:00Z";
                      last_message_time := VStr "2024-07-03T10:05:00Z";
                      qmdl_size_bytes := VInt 4096;
                      analysis_size_bytes := VInt 512 |}]]>
       Spec.broken_manifest).
Proof.
  destruct from_dict_assigns_into_its_argument
    as (_ & Hdisk & _ & Hmemory & _ & Hmanifest).
  split; [|split].
  - refine (proj1 (Hdisk Spec.kilobyte_disk "214.7M" "17.5K" 225129267
                     (ValueError (Some "Unsupported size suffix: K (17.5K)"))
                     _ _ _ _)); by vm_compute.
  - refine (proj1 (Hmemory Spec.kilobyte_memory "159.9M" "142.3K" 167667302
                     (ValueError (Some "Unsupported size suffix: K (142.3K)"))
                     _ _ _ _)); by vm_compute.
  - refine (proj1 (Hmanifest Spec.broken_manifest (VDict Spec.example_entry) []
                     [{| name := VStr "1720000000";
                         start_time := VStr "2024-07-03T10:00:00Z";
                         last_message_time := VStr "2024-07-03T10:05:00Z";
                         qmdl_size_bytes := VInt 4096;
                         analysis_size_bytes := VInt 512 |}]
                     (VDict ∅) TypeError _ _ _ _ _));
      first [discriminate | by vm_compute].
Defined.

(* ===================================================================== *)
(** * system_stats.py: more on the two conversions *)
(* ===================================================================== *)

Section MoreSizes.

Import Py system_stats.

Lemma last_char_app s t : t <> "" -> last_char (s +:+ t) = last_char t.
Proof.
  intros Ht. induction s as [|a s IH]; [done|].
  rewrite append_cons. simpl. rewrite IH.
  destruct (s +:+ t) eqn:E; [|done]. by destruct s, t.
Qed.

Lemma last_char_is_Some s : s <> "" -> exists c, last_char s = Some c.
Proof.
  induction s as [|a s IH]; [done|]. intros _.
  destruct s as [|b s]; [by exists a|]. by apply IH.
Qed.

(** A suffix made of characters of [chars] is dropped whole. *)
Lemma rstrip_app_in chars s t :
  chars_all (fun c => char_in c chars) t -> rstrip chars (s +:+ t) = rstrip chars s.
Proof.
  intros Ht.
  assert (rstrip chars t = "") as Hnil.
  { induction Ht as [|c t Hc _ IH]; [done|]. simpl. by rewrite IH, Hc. }
  induction s as [|a s IH]; [done|].
  rewrite append_cons. simpl. by rewrite IH.
Qed.

Lemma chars_all_eqb_in (x : ascii) s :
  chars_all (fun c => Ascii.eqb c x) s ->
  chars_all (fun c => char_in c (String x "")) s.
Proof.
  apply chars_all_impl. intros c Hc. simpl. by rewrite Hc.
Qed.

Lemma size_str_to_int_strips prefix ms :
  chars_all (fun c => Ascii.eqb c "M") ms -> ms <> "" ->
  _size_str_to_int (prefix +:+ ms) =
    Spec.int_float_times_1048576 (rstrip "M" prefix).
Proof.
  intros Hms Hne. unfold _size_str_to_int, getitem_last.
  rewrite last_char_app by done.
  destruct (last_char_is_Some ms Hne) as [c Hc]. rewrite Hc.
  pose proof (last_char_chars_all _ _ _ Hms Hc) as HM. simpl.
  rewrite HM. simpl.
  by rewrite rstrip_app_in by (by apply chars_all_eqb_in).
Qed.

(** X1.  The suffix may be written any number of times: every trailing
    [M] is dropped before the number is read, so [prefix] followed by
    several [M] converts as [prefix] followed by one. *)
Theorem size_str_to_int_any_number_of_M (prefix ms : string) :
  chars_all (fun c => Ascii.eqb c "M") ms -> ms <> "" ->
  _size_str_to_int (prefix +:+ ms) = _size_str_to_int (prefix +:+ "M").
Proof.
  intros Hms Hne. rewrite (size_str_to_int_strips prefix ms) by done.
  rewrite (size_str_to_int_strips prefix "M"); [done | | done].
  by repeat constructor.
Qed.

Lemma size_str_to_int_any_number_of_M_witness :
  _size_str_to_int ("214.7" +:+ "MMM") = Ok 225129267.
Proof.
  rewrite (size_str_to_int_any_number_of_M "214.7" "MMM");
    [by vm_compute | by repeat constructor | discriminate].
Defined.

(** The exceptions of the conversion. *)
Lemma int_float_times_raises s e :
  Spec.int_float_times_1048576 s = Raise e ->
  e = ValueError None \/ e = OverflowError.
Proof.
  unfold Spec.int_float_times_1048576, float_mul_int.
  rewrite float_of_int_mebi. simpl.
  destruct (float_of_str s) as [x|e'] eqn:Hx; simpl.
  - destruct (float_mul x Spec.mebi) as [| | |]; simpl; try done;
      intros [= <-]; auto.
  - intros [= <-]. left. revert Hx. unfold float_of_str.
    repeat case_match; congruence.
Qed.

(** X2.  The exceptions of [_size_str_to_int].  The empty string gives
    [IndexError]; a last character other than [M] gives the [ValueError]
    that names it; after a last [M], what [float] cannot read and a NaN
    give a [ValueError] and an infinite product gives [OverflowError].
    Nothing else is raised. *)
Theorem size_str_to_int_raises (size : string) (e : exception) :
  _size_str_to_int size = Raise e ->
  (size = "" /\ e = IndexError) \/
  (exists c, last_char size = Some c /\ c <> "M"%char /\
     e = ValueError (Some ("Unsupported size suffix: " +:+ String c ""
                             +:+ " (" +:+ size +:+ ")"))) \/
  (last_char size = Some "M"%char /\
   Spec.int_float_times_1048576 (rstrip "M" size) = Raise e /\
   (e = ValueError None \/ e = OverflowError)).
Proof.
  unfold _size_str_to_int, getitem_last.
  destruct (last_char size) as [c|] eqn:Hlast; simpl.
  - destruct (Ascii.eqb_spec c "M") as [->|Hc]; simpl.
    + intros H. right. right. split; [done|]. split; [done|].
      by apply (int_float_times_raises (rstrip "M" size)).
    + intros [= <-]. right. left. by exists c.
  - intros [= <-]. left. split; [|done].
    destruct size as [|a s]; [done|].
    destruct (last_char_is_Some (String a s)) as [c Hc]; [done|].
    by rewrite Hc in Hlast.
Qed.

Lemma size_str_to_int_raises_witness :
  Spec.int_float_times_1048576 (rstrip "M" "1e999M") = Raise OverflowError.
Proof.
  assert (_size_str_to_int "1e999M" = Raise OverflowError) as H
    by (by vm_compute).
  destruct (size_str_to_int_raises "1e999M" OverflowError H)
    as [[Hs _]|[(c & Hc & Hne & _)|(_ & Hr & _)]].
  - discriminate Hs.
  - exfalso. apply Hne. by injection Hc as <-.
  - exact Hr.
Defined.

(** ** Signs *)

Lemma binary_round_aux_opp s m e l :
  binary_round_aux prec emax (negb s) m e l =
    SFopp (binary_round_aux prec emax s m e l).
Proof.
  unfold binary_round_aux.
  destruct (shr_fexp prec emax m e l) as [mrs' e'].
  destruct (shr_fexp prec emax _ e' loc_Exact) as [mrs'' e''].
  destruct (shr_m mrs''); [done | by case_match | done].
Qed.

Lemma nearest_double_opp p q :
  nearest_double true p q = SFopp (nearest_double false p q).
Proof.
  unfold nearest_double.
  destruct (SFdiv_core_binary prec emax p 0 q 0) as [[m e] l].
  apply (binary_round_aux_opp false).
Qed.

Lemma float_mul_mebi_opp x :
  float_mul (SFopp x) Spec.mebi = SFopp (float_mul x Spec.mebi).
Proof.
  destruct x as [[]|[]| |s m e]; try done.
  unfold float_mul, Spec.mebi, SFmul, SFopp at 1.
  rewrite !xorb_false_r. apply binary_round_aux_opp.
Qed.

Lemma int_of_float_opp x :
  int_of_float (SFopp x) = (n <- int_of_float x ;; Ok (- n)).
Proof.
  destruct x as [s|s| |s m e]; simpl; try done.
  f_equal. destruct s; simpl; lia.
Qed.

Lemma parse_decimal_number s m k :
  Spec.decimal_number s m k -> parse_decimal s = Some (m, k, 0).
Proof.
  destruct 1 as [ip Hip Hne|ip fp Hip Hfp Hne]; unfold parse_decimal.
  - rewrite span_digits_all by done.
    rewrite is_empty_false by done. simpl. by rewrite append_nil_r.
  - change ("." +:+ fp) with (String "." fp).
    rewrite span_digits_app; [|done|by intros c t [= <- <-]].
    simpl. rewrite span_digits_all by done.
    assert (is_empty ip && is_empty fp = false) as ->.
    { destruct Hne as [H|H]; apply is_empty_false in H; rewrite H; [done|].
      by rewrite andb_false_r. }
    done.
Qed.

Lemma decimal_number_nonempty s m k : Spec.decimal_number s m k -> s <> "".
Proof.
  destruct 1 as [ip Hip Hne|ip fp Hip Hfp Hne]; [done|].
  by destruct ip.
Qed.

(** [float] of a decimal number after a minus sign. *)
Lemma float_of_str_minus s m k :
  Spec.decimal_number s m k ->
  float_of_str (String "-" s) = Ok (nearest_double true m (10 ^ k)).
Proof.
  intros H. destruct (decimal_number_chars _ _ _ H) as (Hall & Hm & Hk).
  pose proof (decimal_number_nonempty _ _ _ H) as Hne.
  unfold float_of_str, strip.
  rewrite lstrip_keeps by (by intros c t [= <- <-]).
  rewrite rstrip_keeps; last first.
  { intros c Hc. change (String "-" s) with ("-" +:+ s) in Hc.
    rewrite last_char_app in Hc by done.
    by apply decimal_char_facts, (last_char_chars_all _ s). }
  cbn [drop_underscores]. change (Ascii.eqb "-" "_") with false.
  cbn [andb]. rewrite drop_underscores_keeps by done.
  cbn [option_map split_sign]. rewrite (parse_decimal_number _ _ _ H).
  rewrite Z.max_l, Z.max_r by lia.
  by rewrite Z.mul_1_r, Z.sub_0_r.
Qed.

Lemma rstrip_M_minus s m k :
  Spec.decimal_number s m k -> rstrip "M" (String "-" s) = String "-" s.
Proof.
  intros H. destruct (decimal_number_chars _ _ _ H) as (Hall & _).
  apply rstrip_keeps. intros c Hc.
  change (String "-" s) with ("-" +:+ s) in Hc.
  rewrite last_char_app in Hc by (by eapply decimal_number_nonempty).
  by apply decimal_char_facts, (last_char_chars_all _ s).
Qed.

(** X3.  The sign of a size.  A decimal number followed by [M] never
    converts to a negative count.  A minus sign in front is accepted, not
    refused: the conversion then gives the opposite of the count it gives
    without the sign, or fails as it fails without it. *)
Theorem size_str_to_int_sign (s : string) (m k : Z) :
  Spec.decimal_number s m k ->
  (forall n, _size_str_to_int (s +:+ "M") = Ok n -> 0 <= n) /\
  _size_str_to_int ("-" +:+ s +:+ "M") =
    (n <- _size_str_to_int (s +:+ "M") ;; Ok (- n)).
Proof.
  intros H. destruct (decimal_number_chars _ _ _ H) as (_ & Hm & Hk).
  assert (_size_str_to_int (s +:+ "M") =
            int_of_float (float_mul (nearest_double false m (10 ^ k)) Spec.mebi))
    as Hplus.
  { rewrite (size_conversion_decimal _ _ _ H).
    apply (int_float_times_decimal _ _ _ H). }
  split.
  - intros n. rewrite Hplus.
    destruct (not_negative_brackets _ (product_not_negative m k Hm Hk))
      as [->|(lo & c & Hb)]; [done|].
    rewrite (brackets_int_of_float _ _ _ Hb). intros [= <-].
    destruct Hb as [|m0 e He|m0 e lo He Hlo]; [done | |].
    + assert (0 < 2 ^ e) by (by apply Z.pow_pos_nonneg). lia.
    + assert (0 < 2 ^ (- e)) by (apply Z.pow_pos_nonneg; lia). nia.
  - rewrite Hplus.
    replace ("-" +:+ s +:+ "M") with (String "-" s +:+ "M") by done.
    rewrite size_str_to_int_suffix_M, (rstrip_M_minus _ _ _ H).
    rewrite (float_of_str_minus _ _ _ H). unfold float_mul_int.
    rewrite float_of_int_mebi. simpl.
    by rewrite nearest_double_opp, float_mul_mebi_opp, int_of_float_opp.
Qed.

Lemma size_str_to_int_sign_witness :
  _size_str_to_int "-214.7M" = Ok (- 225129267).
Proof.
  assert (Spec.decimal_number "214.7" 2147 1) as H.
  { apply (Spec.decimal_point "214" "7"); [reflexivity | reflexivity |].
    left. discriminate. }
  destruct (size_str_to_int_sign "214.7" 2147 1 H) as [_ Hminus].
  change ("-" +:+ "214.7" +:+ "M") with "-214.7M" in Hminus.
  rewrite Hminus. by vm_compute.
Defined.

(** ** Whole megabytes *)

Lemma div_eucl_1 x : Z.div_eucl x 1 = (x, 0).
Proof.
  pose proof (Z.div_1_r x) as Hq. pose proof (Z.mod_1_r x) as Hr.
  unfold Z.div, Z.modulo in *. destruct (Z.div_eucl x 1). simpl in *.
  congruence.
Qed.

(** An integer below [2^53] is a double. *)
Lemma nearest_double_integer n :
  0 < n < 2 ^ 53 ->
  exists a : positive,
    Z.pos a = n * 2 ^ (53 - Zdigits2 n) /\
    nearest_double false n 1 = S754_finite false a (Zdigits2 n - 53).
Proof.
  intros [Hpos Hlt].
  pose proof (Zdigits2_le n 53 ltac:(lia) ltac:(lia) Hlt) as Hd.
  assert (0 < Zdigits2 n) as Hd0 by (destruct n; simpl; lia).
  set (d := Zdigits2 n) in *.
  assert (0 < 2 ^ (53 - d)) as Hpow by (apply Z.pow_pos_nonneg; lia).
  destruct (n * 2 ^ (53 - d)) as [|a|a] eqn:Ha; [lia | | lia].
  exists a. split; [done|].
  unfold nearest_double, SFdiv_core_binary. fold d.
  change (Zdigits2 1) with 1.
  replace (Z.min (fexp prec emax (d + 0 - (1 + 0))) (0 - 0)) with (d - 54)
    by (unfold fexp, emin, prec, emax; lia).
  replace (0 - 0 - (d - 54)) with (54 - d) by lia.
  destruct (54 - d) as [|sh|sh] eqn:Hsh; [lia | | lia].
  rewrite Z.shiftl_mul_pow2 by lia. rewrite <- Hsh.
  rewrite div_eucl_1. unfold new_location.
  change (Z.even 1) with false. cbv iota. unfold new_location_odd.
  change (0 =? 0) with true. cbv iota.
  replace (n * 2 ^ (54 - d)) with (Z.pos a * 2 ^ 1); last first.
  { rewrite <- Ha. replace (54 - d) with (53 - d + 1) by lia.
    by rewrite Z.pow_add_r, Z.mul_assoc by lia. }
  assert (Zdigits2 (Z.pos a) = 53) as Hda.
  { rewrite <- Ha, Zdigits2_mul_pow2 by lia. fold d. lia. }
  unfold binary_round_aux.
  rewrite shr_fexp_exact; [| lia | lia |]; last first.
  { rewrite Hda. unfold fexp, emin, prec, emax. lia. }
  cbv iota beta. cbn [shr_m loc_of_shr_record round_nearest_even].
  rewrite shr_fexp_exact_0; [| lia |]; last first.
  { rewrite Hda. unfold fexp, emin, prec, emax. lia. }
  cbv iota beta. cbn [shr_m]. unfold emax, prec.
  rewrite (proj2 (Z.leb_le (d - 54 + 1) (1024 - 53))) by lia.
  f_equal. lia.
Qed.

Lemma floor_scaled_integer n :
  0 <= n < 2 ^ 53 ->
  Spec.floor_scaled (nearest_double false n 1) 20 = n * 1048576.
Proof.
  intros [Hpos Hlt]. destruct (Z.eq_dec n 0) as [->|Hn]; [done|].
  destruct (nearest_double_integer n ltac:(lia)) as (a & Ha & ->).
  pose proof (Zdigits2_le n 53 ltac:(lia) ltac:(lia) Hlt) as Hd.
  assert (0 < Zdigits2 n) as Hd0 by (destruct n; simpl; lia).
  unfold Spec.floor_scaled. rewrite Ha.
  change 1048576 with (2 ^ 20).
  destruct (Z.leb_spec 0 (Zdigits2 n - 53 + 20)) as [He|He].
  - rewrite <- Z.mul_assoc, <- Z.pow_add_r by lia. do 2 f_equal. lia.
  - replace (53 - Zdigits2 n) with (20 + - (Zdigits2 n - 53 + 20)) by lia.
    rewrite Z.pow_add_r, Z.mul_assoc by lia.
    apply Z.div_mul. apply Z.pow_nonzero; lia.
Qed.

(** X4.  Whole megabytes convert without error of rounding: digits that
    write a number below [2^53], followed by [M], give that number times
    1048576.  So a natural number [z] below [2^53] comes back from
    [str(z)] followed by [M] as [z * 1048576]. *)
Theorem size_str_to_int_whole_megabytes (d : string) :
  all_digits d = true -> d <> "" -> digits_value 0 d < 2 ^ 53 ->
  _size_str_to_int (d +:+ "M") = Ok (digits_value 0 d * 1048576) /\
  forall z, d = str_of_int z -> 0 <= z ->
    _size_str_to_int (str_of_int z +:+ "M") = Ok (z * 1048576).
Proof.
  intros Hd Hne Hlt.
  assert (Spec.decimal_number d (digits_value 0 d) 0) as Hdec
    by (by constructor).
  destruct (decimal_number_chars _ _ _ Hdec) as (_ & Hm & _).
  assert (_size_str_to_int (d +:+ "M") = Ok (digits_value 0 d * 1048576)) as H.
  { rewrite (size_conversion_decimal _ _ _ Hdec).
    rewrite (int_float_times_in_range _ _ _ Hdec); last first.
    { eapply Z.lt_trans; [done|]. by vm_compute. }
    change (10 ^ 0) with 1. by rewrite floor_scaled_integer. }
  split; [done|]. intros z -> Hz. rewrite H. do 2 f_equal.
  by apply str_of_int_digits.
Qed.

Lemma size_str_to_int_whole_megabytes_witness :
  _size_str_to_int "9007199254740991M" = Ok 9444732965739289378816.
Proof.
  pose proof (proj1 (size_str_to_int_whole_megabytes "9007199254740991"
                       eq_refl ltac:(discriminate) ltac:(by vm_compute)))
    as H.
  exact H.
Defined.

(** ** The percentage *)



End MoreSizes.

(* ===================================================================== *)
(** * system_stats.py: what else the constructors do *)
(* ===================================================================== *)

Section MoreStats.

Import Py system_stats.

(** Only a [str] is converted. *)
Lemma size_conversion_of_value v n :
  _size_str_to_int_value v = Ok n -> exists s, v = VStr s /\ _size_str_to_int s = Ok n.
Proof.
  destruct v as [| | | |s|l| |]; simpl; try done; [by eauto|].
  intros H. by repeat case_match.
Qed.

Lemma percent_conversion_of_value v n :
  percent_to_int v = Ok n ->
  exists s, v = VStr s /\ int_of_str (rstrip "%" s) = Ok n.
Proof. destruct v; simpl; try done. by eauto. Qed.

(** A call of [DiskStats.from_dict] that returns has found strings under
    its four numeric keys and has converted each. *)
Lemma DiskStats_from_dict_inv d r :
  fst (DiskStats_from_dict d) = Ok r ->
  exists ts us avs ps t u a p,
    d !! "total_size" = Some (VStr ts) /\ _size_str_to_int ts = Ok t /\
    d !! "used_size" = Some (VStr us) /\ _size_str_to_int us = Ok u /\
    d !! "available_size" = Some (VStr avs) /\ _size_str_to_int avs = Ok a /\
    d !! "used_percent" = Some (VStr ps) /\
    int_of_str (rstrip "%" ps) = Ok p.
Proof.
  unfold DiskStats_from_dict, for_each, bind, getitem, setitem, lift, modify,
    ret, get.
  destruct (d !! "total_size") as [v1|] eqn:H1; [|done].
  destruct (_size_str_to_int_value v1) as [t|] eqn:H1'; [|done].
  rewrite lookup_insert_ne by done.
  destruct (d !! "used_size") as [v2|] eqn:H2; [|done].
  destruct (_size_str_to_int_value v2) as [u|] eqn:H2'; [|done].
  rewrite !lookup_insert_ne by done.
  destruct (d !! "available_size") as [v3|] eqn:H3; [|done].
  destruct (_size_str_to_int_value v3) as [a|] eqn:H3'; [|done].
  rewrite !lookup_insert_ne by done.
  destruct (d !! "used_percent") as [v4|] eqn:H4; [|done].
  destruct (percent_to_int v4) as [p|] eqn:H4'; [|done].
  intros _.
  apply size_conversion_of_value in H1' as (ts & -> & ?).
  apply size_conversion_of_value in H2' as (us & -> & ?).
  apply size_conversion_of_value in H3' as (avs & -> & ?).
  apply percent_conversion_of_value in H4' as (ps & -> & ?).
  by exists ts, us, avs, ps, t, u, a, p.
Qed.

Lemma MemoryStats_from_dict_inv d r :
  fst (MemoryStats_from_dict d) = Ok r ->
  exists ts us fs t u f,
    d !! "total" = Some (VStr ts) /\ _size_str_to_int ts = Ok t /\
    d !! "used" = Some (VStr us) /\ _size_str_to_int us = Ok u /\
    d !! "free" = Some (VStr fs) /\ _size_str_to_int fs = Ok f.
Proof.
  unfold MemoryStats_from_dict, for_each, bind, getitem, setitem, lift, modify,
    ret, get.
  destruct (d !! "total") as [v1|] eqn:H1; [|done].
  destruct (_size_str_to_int_value v1) as [t|] eqn:H1'; [|done].
  rewrite lookup_insert_ne by done.
  destruct (d !! "used") as [v2|] eqn:H2; [|done].
  destruct (_size_str_to_int_value v2) as [u|] eqn:H2'; [|done].
  rewrite !lookup_insert_ne by done.
  destruct (d !! "free") as [v3|] eqn:H3; [|done].
  destruct (_size_str_to_int_value v3) as [f|] eqn:H3'; [|done].
  intros _.
  apply size_conversion_of_value in H1' as (ts & -> & ?).
  apply size_conversion_of_value in H2' as (us & -> & ?).
  apply size_conversion_of_value in H3' as (fs & -> & ?).
  by exists ts, us, fs, t, u, f.
Qed.

(** A dictionary of three keys that has these three is [memory_dict]. *)
Lemma memory_dict_eq (d : dict) v1 v2 v3 :
  size d = 3%nat -> d !! "total" = Some v1 -> d !! "used" = Some v2 ->
  d !! "free" = Some v3 -> d = Spec.memory_dict v1 v2 v3.
Proof.
  intros Hsize H1 H2 H3. apply map_eq. intros k. unfold Spec.memory_dict.
  destruct (decide (k ∈ ["total"; "used"; "free"])) as [Hin|Hout].
  - repeat (apply elem_of_cons in Hin as [->|Hin]; [by lookups|]).
    by apply elem_of_nil in Hin.
  - rewrite (lookup_outside ["total"; "used"; "free"] d); [| |done| |done].
    + repeat (rewrite lookup_insert_ne
                by (intros <-; apply Hout; repeat constructor)).
      done.
    + apply (bool_decide_unpack _). by vm_compute.
    + intros k' Hk'.
      repeat (apply elem_of_cons in Hk' as [->|Hk']; [by eexists|]).
      by apply elem_of_nil in Hk'.
Qed.

Lemma disk_dict_eq (d : dict) v1 v2 v3 v4 v5 v6 :
  size d = 6%nat -> d !! "partition" = Some v1 ->
  d !! "total_size" = Some v2 -> d !! "used_size" = Some v3 ->
  d !! "available_size" = Some v4 -> d !! "used_percent" = Some v5 ->
  d !! "mounted_on" = Some v6 -> d = Spec.disk_dict v1 v2 v3 v4 v5 v6.
Proof.
  intros Hsize H1 H2 H3 H4 H5 H6. apply map_eq. intros k.
  unfold Spec.disk_dict.
  destruct (decide (k ∈ ["partition"; "total_size"; "used_size";
                         "available_size"; "used_percent"; "mounted_on"]))
    as [Hin|Hout].
  - repeat (apply elem_of_cons in Hin as [->|Hin]; [by lookups|]).
    by apply elem_of_nil in Hin.
  - rewrite (lookup_outside ["partition"; "total_size"; "used_size";
                             "available_size"; "used_percent"; "mounted_on"] d);
      [| |done| |done].
    + repeat (rewrite lookup_insert_ne
                by (intros <-; apply Hout; repeat constructor)).
      done.
    + apply (bool_decide_unpack _). by vm_compute.
    + intros k' Hk'.
      repeat (apply elem_of_cons in Hk' as [->|Hk']; [by eexists|]).
      by apply elem_of_nil in Hk'.
Qed.

Lemma MemoryStats_init_inv kw r :
  MemoryStats_init kw = Ok r ->
  kw = Spec.memory_dict (total r) (used r) (free r).
Proof.
  unfold MemoryStats_init.
  destruct (kw !! "total") as [t|] eqn:Ht; [|done].
  destruct (kw !! "used") as [u|] eqn:Hu; [|done].
  destruct (kw !! "free") as [f|] eqn:Hf; [|done].
  case_decide as Hsize; [|done]. intros [= <-]. by apply memory_dict_eq.
Qed.

Lemma DiskStats_init_inv kw r :
  DiskStats_init kw = Ok r ->
  kw = Spec.disk_dict (partition r) (total_size r) (used_size r)
         (available_size r) (used_percent r) (mounted_on r).
Proof.
  unfold DiskStats_init.
  destruct (kw !! "partition") as [p|] eqn:Hp; [|done].
  destruct (kw !! "total_size") as [t|] eqn:Ht; [|done].
  destruct (kw !! "used_size") as [u|] eqn:Hu; [|done].
  destruct (kw !! "available_size") as [a|] eqn:Ha; [|done].
  destruct (kw !! "used_percent") as [pc|] eqn:Hpc; [|done].
  destruct (kw !! "mounted_on") as [m|] eqn:Hm; [|done].
  case_decide as Hsize; [|done]. intros [= <-]. by apply disk_dict_eq.
Qed.

(** X6.  [MemoryStats.from_dict] returns exactly on the mappings that have
    the three keys [total], [used] and [free] and no other, each holding a
    string that the size conversion accepts; what it returns are the three
    converted byte counts. *)
Theorem MemoryStats_from_dict_returns (d : dict) (r : MemoryStats) :
  fst (MemoryStats_from_dict d) = Ok r <->
  exists ts us fs t u f,
    d = Spec.memory_dict (VStr ts) (VStr us) (VStr fs) /\
    _size_str_to_int ts = Ok t /\ _size_str_to_int us = Ok u /\
    _size_str_to_int fs = Ok f /\
    r = {| total := VInt t; used := VInt u; free := VInt f |}.
Proof.
  split.
  - intros Hr.
    destruct (MemoryStats_from_dict_inv d r Hr)
      as (ts & us & fs & t & u & f & Ht & Ht' & Hu & Hu' & Hf & Hf').
    rewrite (MemoryStats_from_dict_run d (VStr ts) (VStr us) (VStr fs) t u f
               Ht Ht' Hu Hu' Hf Hf') in Hr. simpl in Hr.
    revert Hr. unfold MemoryStats_init. lookups.
    case_decide as Hsize; [|done]. intros [= <-].
    rewrite (size_insert_present _ "free" _ (VStr fs)) in Hsize by (by lookups).
    rewrite (size_insert_present _ "used" _ (VStr us)) in Hsize by (by lookups).
    rewrite (size_insert_present _ "total" _ (VStr ts)) in Hsize by done.
    exists ts, us, fs, t, u, f. repeat split; try done.
    by apply memory_dict_eq.
  - intros (ts & us & fs & t & u & f & -> & Ht & Hu & Hf & ->).
    by rewrite (MemoryStats_from_dict_run
                  (Spec.memory_dict (VStr ts) (VStr us) (VStr fs))
                  (VStr ts) (VStr us) (VStr fs) t u f
                  eq_refl Ht eq_refl Hu eq_refl Hf).
Qed.

Lemma MemoryStats_from_dict_returns_witness :
  fst (MemoryStats_from_dict Spec.example_memory) =
    Ok {| total := VInt 167667302; used := VInt 149212364;
          free := VInt 18454937 |}.
Proof.
  apply (proj2 (MemoryStats_from_dict_returns Spec.example_memory _)).
  exists "159.9M", "142.3M", "17.6M", 167667302, 149212364, 18454937.
  repeat split; by vm_compute.
Defined.

(** X7.  [DiskStats.from_dict] returns exactly on the mappings that have
    the six field names as keys and no other, with strings that the size
    conversion accepts under the three size keys and a string that [int]
    accepts, once its trailing percent signs are dropped, under
    [used_percent].  The values under [partition] and [mounted_on] pass
    through unchanged, of whatever type they are. *)
Theorem DiskStats_from_dict_returns (d : dict) (r : DiskStats) :
  fst (DiskStats_from_dict d) = Ok r <->
  exists (p mo : value) ts us avs ps t u a pc,
    d = Spec.disk_dict p (VStr ts) (VStr us) (VStr avs) (VStr ps) mo /\
    _size_str_to_int ts = Ok t /\ _size_str_to_int us = Ok u /\
    _size_str_to_int avs = Ok a /\ int_of_str (rstrip "%" ps) = Ok pc /\
    r = {| partition := p; total_size := VInt t; used_size := VInt u;
           available_size := VInt a; used_percent := VInt pc;
           mounted_on := mo |}.
Proof.
  split.
  - intros Hr.
    destruct (DiskStats_from_dict_inv d r Hr)
      as (ts & us & avs & ps & t & u & a & pc
          & Ht & Ht' & Hu & Hu' & Ha & Ha' & Hp & Hp').
    rewrite (DiskStats_from_dict_run d (VStr ts) (VStr us) (VStr avs) (VStr ps)
               t u a pc Ht Ht' Hu Hu' Ha Ha' Hp Hp') in Hr. simpl in Hr.
    revert Hr. unfold DiskStats_init. lookups.
    destruct (d !! "partition") as [p|] eqn:Hpart; [|done].
    destruct (d !! "mounted_on") as [mo|] eqn:Hmo; [|done].
    case_decide as Hsize; [|done]. intros [= <-].
    rewrite (size_insert_present _ "used_percent" _ (VStr ps)) in Hsize
      by (by lookups).
    rewrite (size_insert_present _ "available_size" _ (VStr avs)) in Hsize
      by (by lookups).
    rewrite (size_insert_present _ "used_size" _ (VStr us)) in Hsize
      by (by lookups).
    rewrite (size_insert_present _ "total_size" _ (VStr ts)) in Hsize by done.
    exists p, mo, ts, us, avs, ps, t, u, a, pc. repeat split; try done.
    by apply disk_dict_eq.
  - intros (p & mo & ts & us & avs & ps & t & u & a & pc
            & -> & Ht & Hu & Ha & Hp & ->).
    by rewrite (DiskStats_from_dict_run
                  (Spec.disk_dict p (VStr ts) (VStr us) (VStr avs) (VStr ps) mo)
                  (VStr ts) (VStr us) (VStr avs) (VStr ps) t u a pc
                  eq_refl Ht eq_refl Hu eq_refl Ha eq_refl Hp).
Qed.

Lemma DiskStats_from_dict_returns_witness :
  fst (DiskStats_from_dict
         (Spec.disk_dict (VInt 0) (VStr "214.7M") (VStr "17.5M")
            (VStr "197.2M") (VStr "8") VNone)) =
    Ok {| partition := VInt 0; total_size := VInt 225129267;
          used_size := VInt 18350080; available_size := VInt 206779187;
          used_percent := VInt 8; mounted_on := VNone |}.
Proof.
  apply (proj2 (DiskStats_from_dict_returns _ _)).
  exists (VInt 0), VNone, "214.7M", "17.5M", "197.2M", "8",
    225129267, 18350080, 206779187, 8.
  repeat split; by vm_compute.
Defined.

(** X8.  A mapping can be converted once.  After a call of
    [DiskStats.from_dict] or [MemoryStats.from_dict] that returned, the
    mapping holds integers where it held strings, and a second call on it
    raises [TypeError] and changes nothing. *)
Theorem from_dict_twice (d : dict) :
  (forall r, fst (DiskStats_from_dict d) = Ok r ->
     DiskStats_from_dict (snd (DiskStats_from_dict d)) =
       (Raise TypeError, snd (DiskStats_from_dict d))) /\
  (forall r, fst (MemoryStats_from_dict d) = Ok r ->
     MemoryStats_from_dict (snd (MemoryStats_from_dict d)) =
       (Raise TypeError, snd (MemoryStats_from_dict d))).
Proof.
  split; intros r Hr.
  - destruct (DiskStats_from_dict_inv d r Hr)
      as (ts & us & avs & ps & t & u & a & pc
          & Ht & Ht' & Hu & Hu' & Ha & Ha' & Hp & Hp').
    rewrite (DiskStats_from_dict_run d (VStr ts) (VStr us) (VStr avs) (VStr ps)
               t u a pc Ht Ht' Hu Hu' Ha Ha' Hp Hp'). simpl.
    unfold DiskStats_from_dict, for_each, bind, getitem, lift. by lookups.
  - destruct (MemoryStats_from_dict_inv d r Hr)
      as (ts & us & fs & t & u & f & Ht & Ht' & Hu & Hu' & Hf & Hf').
    rewrite (MemoryStats_from_dict_run d (VStr ts) (VStr us) (VStr fs) t u f
               Ht Ht' Hu Hu' Hf Hf'). simpl.
    unfold MemoryStats_from_dict, for_each, bind, getitem, lift. by lookups.
Qed.

Lemma from_dict_twice_witness :
  DiskStats_from_dict (snd (DiskStats_from_dict Spec.example_disk)) =
    (Raise TypeError, snd (DiskStats_from_dict Spec.example_disk)).
Proof.
  refine (proj1 (from_dict_twice Spec.example_disk) _ _).
  by vm_compute.
Defined.

(** X9.  What [DiskStats.from_dict] does with a mapping that lacks a key or
    has one too many.  Without [total_size] it raises [KeyError] and
    changes nothing.  The keys [partition] and [mounted_on] and the number
    of keys are looked at last: when one of the two is missing, or there
    is a seventh key, the call raises [TypeError] after it has converted
    the four numeric fields in place. *)
Theorem DiskStats_from_dict_wrong_keys (d : dict) :
  (d !! "total_size" = None ->
   DiskStats_from_dict d = (Raise KeyError, d)) /\
  (forall ts us avs ps t u a pc,
     d !! "total_size" = Some (VStr ts) -> _size_str_to_int ts = Ok t ->
     d !! "used_size" = Some (VStr us) -> _size_str_to_int us = Ok u ->
     d !! "available_size" = Some (VStr avs) -> _size_str_to_int avs = Ok a ->
     d !! "used_percent" = Some (VStr ps) ->
     int_of_str (rstrip "%" ps) = Ok pc ->
     d !! "partition" = None \/ d !! "mounted_on" = None \/ size d <> 6%nat ->
     DiskStats_from_dict d =
       (Raise TypeError,
        <["used_percent" := VInt pc]> (<["available_size" := VInt a]>
        (<["used_size" := VInt u]> (<["total_size" := VInt t]> d))))).
Proof.
  split.
  - intros Hnone. unfold DiskStats_from_dict, for_each, bind, getitem.
    by rewrite Hnone.
  - intros ts us avs ps t u a pc Ht Ht' Hu Hu' Ha Ha' Hp Hp' Hbad.
    rewrite (DiskStats_from_dict_run d (VStr ts) (VStr us) (VStr avs) (VStr ps)
               t u a pc Ht Ht' Hu Hu' Ha Ha' Hp Hp'). simpl. f_equal.
    unfold DiskStats_init. lookups.
    rewrite (size_insert_present _ "used_percent" _ (VStr ps)) by (by lookups).
    rewrite (size_insert_present _ "available_size" _ (VStr avs))
      by (by lookups).
    rewrite (size_insert_present _ "used_size" _ (VStr us)) by (by lookups).
    rewrite (size_insert_present _ "total_size" _ (VStr ts)) by done.
    destruct (d !! "partition"); [|done].
    destruct (d !! "mounted_on"); [|done].
    case_decide; [|done]. by destruct Hbad as [?|[?|?]].
Qed.

Lemma DiskStats_from_dict_wrong_keys_witness :
  fst (DiskStats_from_dict (<["inodes" := VInt 7]> Spec.example_disk)) =
    Raise TypeError /\
  snd (DiskStats_from_dict (<["inodes" := VInt 7]> Spec.example_disk))
    !! "total_size" = Some (VInt 225129267).
Proof.
  assert (size (<["inodes" := VInt 7]> Spec.example_disk) <> 6%nat) as Hsize
    by (by vm_compute).
  rewrite (proj2 (DiskStats_from_dict_wrong_keys
                    (<["inodes" := VInt 7]> Spec.example_disk))
             "214.7M" "17.5M" "197.2M" "8%" 225129267 18350080 206779187 8
             ltac:(by vm_compute) ltac:(by vm_compute) ltac:(by vm_compute)
             ltac:(by vm_compute) ltac:(by vm_compute) ltac:(by vm_compute)
             ltac:(by vm_compute) ltac:(by vm_compute)
             (or_intror (or_intror Hsize))).
  split; [done | by lookups].
Defined.

(** X10.  [SystemStats.from_dict] returns exactly when the mapping holds a
    mapping under [disk_stats] that [DiskStats.from_dict] converts and one
    under [memory_stats] that [MemoryStats.from_dict] converts; the result
    pairs the two.  Other keys of the outer mapping are ignored. *)
Theorem SystemStats_from_dict_returns (outer : dict) (r : SystemStats) :
  fst (SystemStats_from_dict outer) = Ok r <->
  exists dd md : dict,
    outer !! "disk_stats" = Some (VDict dd) /\
    outer !! "memory_stats" = Some (VDict md) /\
    fst (DiskStats_from_dict dd) = Ok (disk_stats r) /\
    fst (MemoryStats_from_dict md) = Ok (memory_stats r).
Proof.
  unfold SystemStats_from_dict, bind, on_item, ret. split.
  - destruct (outer !! "disk_stats") as [[| | | | | |dd|]|] eqn:Hd; try done.
    destruct (DiskStats_from_dict dd) as [[ds|e] dd'] eqn:Hdd; [|done].
    rewrite lookup_insert_ne by done.
    destruct (outer !! "memory_stats") as [[| | | | | |md|]|] eqn:Hm; try done.
    destruct (MemoryStats_from_dict md) as [[ms|e] md'] eqn:Hmd; [|done].
    intros [= <-]. exists dd, md. by rewrite Hdd, Hmd.
  - intros (dd & md & -> & Hm & Hdd & Hmd).
    destruct (DiskStats_from_dict dd) as [[ds|e] dd']; [|done].
    rewrite lookup_insert_ne, Hm by done.
    destruct (MemoryStats_from_dict md) as [[ms|e] md']; [|done].
    simpl in *. destruct r. simpl in *. congruence.
Qed.

Lemma SystemStats_from_dict_returns_witness :
  exists r,
    fst (SystemStats_from_dict
           (<["uptime" := VInt 3600]> Spec.example_system)) = Ok r.
Proof.
  exists {| disk_stats :=
              {| partition := VStr "ubi0:usrfs"; total_size := VInt 225129267;
                 used_size := VInt 18350080; available_size := VInt 206779187;
                 used_percent := VInt 8; mounted_on := VStr "/data" |};
            memory_stats :=
              {| total := VInt 167667302; used := VInt 149212364;
                 free := VInt 18454937 |} |}.
  apply (proj2 (SystemStats_from_dict_returns _ _)).
  exists Spec.example_disk, Spec.example_memory.
  repeat split; by vm_compute.
Defined.

(** X11.  The two parts are converted in turn, each in place inside the
    outer mapping.  When the disk part fails, its exception comes out and
    the memory part has not been touched.  When the memory part is missing
    or fails, the call fails although the disk part, still reachable
    through the outer mapping, has been converted. *)
Theorem SystemStats_from_dict_in_turn (outer dd dd' : dict) :
  outer !! "disk_stats" = Some (VDict dd) ->
  (forall e,
     DiskStats_from_dict dd = (Raise e, dd') ->
     SystemStats_from_dict outer =
       (Raise e, <["disk_stats" := VDict dd']> outer) /\
     <["disk_stats" := VDict dd']> outer !! "memory_stats" =
       outer !! "memory_stats") /\
  (forall ds,
     DiskStats_from_dict dd = (Ok ds, dd') ->
     (outer !! "memory_stats" = None ->
      SystemStats_from_dict outer =
        (Raise KeyError, <["disk_stats" := VDict dd']> outer)) /\
     (forall md md' e,
        outer !! "memory_stats" = Some (VDict md) ->
        MemoryStats_from_dict md = (Raise e, md') ->
        SystemStats_from_dict outer =
          (Raise e, <["memory_stats" := VDict md']>
                      (<["disk_stats" := VDict dd']> outer))) /\
     (forall md md' ms,
        outer !! "memory_stats" = Some (VDict md) ->
        MemoryStats_from_dict md = (Ok ms, md') ->
        SystemStats_from_dict outer =
          (Ok {| disk_stats := ds; memory_stats := ms |},
           <["memory_stats" := VDict md']>
             (<["disk_stats" := VDict dd']> outer)))).
Proof.
  intros Hd. unfold SystemStats_from_dict, bind, on_item, ret.
  rewrite Hd. split.
  - intros e ->. split; [done | by rewrite lookup_insert_ne].
  - intros ds ->. rewrite lookup_insert_ne by done.
    split; [by intros ->|]. split; by intros md md' x -> ->.
Qed.

Lemma SystemStats_from_dict_in_turn_witness :
  fst (SystemStats_from_dict (<["disk_stats" := VDict Spec.kilobyte_disk]> ∅)) =
    Raise (ValueError (Some "Unsupported size suffix: K (17.5K)")).
Proof.
  assert ((<["disk_stats" := VDict Spec.kilobyte_disk]> ∅ : dict)
            !! "disk_stats" = Some (VDict Spec.kilobyte_disk)) as Hd
    by (by vm_compute).
  assert (DiskStats_from_dict Spec.kilobyte_disk =
            (Raise (ValueError (Some "Unsupported size suffix: K (17.5K)")),
             <["total_size" := VInt 225129267]> Spec.kilobyte_disk)) as Hdd
    by (apply (DiskStats_from_dict_second_fails _ (VStr "214.7M") (VStr "17.5K"));
        by vm_compute).
  destruct (SystemStats_from_dict_in_turn _ _
              (<["total_size" := VInt 225129267]> Spec.kilobyte_disk) Hd)
    as [Hfail _].
  destruct (Hfail _ Hdd) as [-> _]. reflexivity.
Defined.

(** X12.  Numbers where the strings should be are refused.  A size that
    is a JSON number, a boolean or [null] cannot be subscripted: the call
    raises [TypeError] and changes nothing.  A percentage that is not a
    string has no [rstrip]: the call raises [AttributeError], after the
    three sizes have been converted in place. *)
Theorem DiskStats_from_dict_refuses_numbers (d : dict) (v : value) :
  (d !! "total_size" = Some v ->
   v = VNone \/ (exists b, v = VBool b) \/ (exists n, v = VInt n) \/
     (exists x, v = VFloat x) ->
   DiskStats_from_dict d = (Raise TypeError, d)) /\
  (forall ts us avs t u a,
     d !! "total_size" = Some (VStr ts) -> _size_str_to_int ts = Ok t ->
     d !! "used_size" = Some (VStr us) -> _size_str_to_int us = Ok u ->
     d !! "available_size" = Some (VStr avs) -> _size_str_to_int avs = Ok a ->
     d !! "used_percent" = Some v -> (forall s, v <> VStr s) ->
     DiskStats_from_dict d =
       (Raise AttributeError,
        <["available_size" := VInt a]> (<["used_size" := VInt u]>
        (<["total_size" := VInt t]> d)))).
Proof.
  split.
  - intros Hv Hnum.
    unfold DiskStats_from_dict, for_each, bind, getitem, lift. rewrite Hv.
    by destruct Hnum as [->|[[b ->]|[[n ->]|[x ->]]]].
  - intros ts us avs t u a Ht Ht' Hu Hu' Ha Ha' Hp Hns.
    unfold DiskStats_from_dict, for_each, bind, getitem, setitem, lift, modify,
      ret, get.
    rewrite Ht. simpl. rewrite Ht'.
    rewrite lookup_insert_ne, Hu by done. simpl. rewrite Hu'.
    rewrite !lookup_insert_ne, Ha by done. simpl. rewrite Ha'.
    rewrite !lookup_insert_ne, Hp by done.
    destruct v; try done. by destruct (Hns s).
Qed.

Lemma DiskStats_from_dict_refuses_numbers_witness :
  fst (DiskStats_from_dict (<["used_percent" := VInt 8]> Spec.example_disk)) =
    Raise AttributeError.
Proof.
  rewrite (proj2 (DiskStats_from_dict_refuses_numbers
                    (<["used_percent" := VInt 8]> Spec.example_disk) (VInt 8))
             "214.7M" "17.5M" "197.2M" 225129267 18350080 206779187
             ltac:(by vm_compute) ltac:(by vm_compute) ltac:(by vm_compute)
             ltac:(by vm_compute) ltac:(by vm_compute) ltac:(by vm_compute)
             ltac:(by vm_compute) ltac:(done)).
  done.
Defined.

End MoreStats.

(* ===================================================================== *)
(** * manifest.py: which documents are manifests *)
(* ===================================================================== *)

Section MoreManifest.

Import manifest.

Lemma size_entry_dict n s l q a : size (Spec.entry_dict n s l q a) = 5%nat.
Proof.
  unfold Spec.entry_dict.
  rewrite !map_size_insert_None by (by lookups). by rewrite map_size_empty.
Qed.

Lemma size_manifest_dict v c : size (Spec.manifest_dict v c) = 2%nat.
Proof.
  unfold Spec.manifest_dict.
  rewrite !map_size_insert_None by (by lookups). by rewrite map_size_empty.
Qed.

(** [QmdlManifestEntry] accepts the mappings of its five fields, and only
    them. *)
Lemma QmdlManifestEntry_kwargs_document x e :
  QmdlManifestEntry_kwargs x = Ok e <-> x = Spec.entry_document e.
Proof.
  split.
  - destruct x as [| | | | | |kw|]; try done. simpl.
    intros H%QmdlManifestEntry_init_inv. unfold Spec.entry_document.
    by rewrite <- H.
  - intros ->. destruct e as [n s l q a]. simpl.
    unfold QmdlManifestEntry_init. rewrite size_entry_dict.
    unfold Spec.entry_dict. lookups. by case_decide.
Qed.

Lemma QmdlManifestEntry_kwargs_raises x e :
  QmdlManifestEntry_kwargs x = Raise e -> e = TypeError.
Proof.
  destruct x; simpl; try (by intros [= <-]).
  unfold QmdlManifestEntry_init. repeat case_match; by intros [= <-].
Qed.

Lemma mapM_kwargs_documents xs es :
  mapM QmdlManifestEntry_kwargs xs = Ok es <->
  xs = map Spec.entry_document es.
Proof.
  revert es. induction xs as [|x xs IH]; intros es; simpl.
  - split; [by intros [= <-] | by destruct es].
  - split.
    + destruct (QmdlManifestEntry_kwargs x) as [e|] eqn:Hx; [|done]. simpl.
      destruct (mapM QmdlManifestEntry_kwargs xs) as [es'|] eqn:Hxs; [|done].
      simpl. intros [= <-]. simpl.
      apply QmdlManifestEntry_kwargs_document in Hx as ->.
      by rewrite (proj1 (IH es') eq_refl).
    + destruct es as [|e es]; [done|]. simpl. intros [= -> Hxs].
      rewrite (proj2 (QmdlManifestEntry_kwargs_document _ e) eq_refl). simpl.
      by rewrite (proj2 (IH es) Hxs).
Qed.

Lemma mapM_kwargs_raises xs e :
  mapM QmdlManifestEntry_kwargs xs = Raise e -> e = TypeError.
Proof.
  induction xs as [|x xs IH]; simpl; [done|].
  destruct (QmdlManifestEntry_kwargs x) as [y|e'] eqn:Hx; simpl.
  - destruct (mapM QmdlManifestEntry_kwargs xs) as [ys|e'']; simpl; [done|].
    intros [= <-]. by apply IH.
  - intros [= <-]. by apply QmdlManifestEntry_kwargs_raises in Hx.
Qed.

(** A dictionary of two keys that has these two is [manifest_dict]. *)
Lemma manifest_dict_eq (d : dict) v c :
  size d = 2%nat -> d !! "entries" = Some v -> d !! "current_entry" = Some c ->
  d = Spec.manifest_dict v c.
Proof.
  intros Hsize H1 H2. apply map_eq. intros k. unfold Spec.manifest_dict.
  destruct (decide (k ∈ ["entries"; "current_entry"])) as [Hin|Hout].
  - repeat (apply elem_of_cons in Hin as [->|Hin]; [by lookups|]).
    by apply elem_of_nil in Hin.
  - rewrite (lookup_outside ["entries"; "current_entry"] d); [| |done| |done].
    + repeat (rewrite lookup_insert_ne
                by (intros <-; apply Hout; repeat constructor)).
      done.
    + apply (bool_decide_unpack _). by vm_compute.
    + intros k' Hk'.
      repeat (apply elem_of_cons in Hk' as [->|Hk']; [by eexists|]).
      by apply elem_of_nil in Hk'.
Qed.

(** What a returning call has gone through. *)
Lemma QmdlManifest_from_dict_inv d m :
  fst (QmdlManifest_from_dict d) = Ok m ->
  exists v c es,
    d !! "entries" = Some v /\ iter v = Ok (map Spec.entry_document es) /\
    d !! "current_entry" = Some c /\
    ((c = VNone /\
      QmdlManifest_from_dict d =
        (Ok m, <["entries" := VList (map VEntry es)]> d) /\
      QmdlManifest_init (<["entries" := VList (map VEntry es)]> d) = Ok m) \/
     (exists e,
        c = Spec.entry_document e /\
        QmdlManifest_from_dict d =
          (Ok m, <["current_entry" := VEntry e]>
                   (<["entries" := VList (map VEntry es)]> d)) /\
        QmdlManifest_init (<["current_entry" := VEntry e]>
                             (<["entries" := VList (map VEntry es)]> d)) =
          Ok m)).
Proof.
  intros Hm.
  destruct (d !! "entries") as [v|] eqn:Hv; last first.
  { revert Hm. unfold QmdlManifest_from_dict, bind, getitem. by rewrite Hv. }
  destruct (iter v) as [xs|] eqn:Hxs; last first.
  { revert Hm. unfold QmdlManifest_from_dict, bind, getitem, lift.
    by rewrite Hv, Hxs. }
  destruct (mapM QmdlManifestEntry_kwargs xs) as [es|] eqn:Hes; last first.
  { revert Hm. unfold QmdlManifest_from_dict, bind, getitem, lift.
    by rewrite Hv, Hxs, Hes. }
  destruct (d !! "current_entry") as [c|] eqn:Hc; last first.
  { revert Hm.
    unfold QmdlManifest_from_dict, bind, getitem, setitem, lift, modify.
    rewrite Hv, Hxs, Hes. by rewrite lookup_insert_ne, Hc by done. }
  pose proof (proj1 (mapM_kwargs_documents _ _) Hes) as ->.
  exists v, c, es. repeat split; try done.
  destruct (is_not_None c) eqn:Hnn.
  - destruct (QmdlManifestEntry_kwargs c) as [e|e] eqn:He; last first.
    { by rewrite (manifest_current_fails d _ _ _ _ _ Hv Hxs Hes Hc Hnn He)
        in Hm. }
    right. exists e. split; [by apply QmdlManifestEntry_kwargs_document|].
    rewrite (manifest_run_some d _ _ _ _ _ Hv Hxs Hes Hc He) in Hm |- *.
    simpl in Hm. by rewrite Hm.
  - destruct c; try done. left. split; [done|].
    rewrite (manifest_run_none d _ _ _ Hv Hxs Hes Hc) in Hm |- *.
    simpl in Hm. by rewrite Hm.
Qed.

Lemma QmdlManifest_init_inv kw m :
  QmdlManifest_init kw = Ok m ->
  kw = Spec.manifest_dict (entries m) (current_entry m).
Proof.
  unfold QmdlManifest_init.
  destruct (kw !! "entries") as [es|] eqn:He; [|done].
  destruct (kw !! "current_entry") as [ce|] eqn:Hc; [|done].
  case_decide as Hsize; [|done]. intros [= <-]. by apply manifest_dict_eq.
Qed.

Lemma QmdlManifest_init_manifest_dict v c :
  QmdlManifest_init (Spec.manifest_dict v c) =
    Ok {| entries := v; current_entry := c |}.
Proof.
  unfold QmdlManifest_init. rewrite size_manifest_dict.
  unfold Spec.manifest_dict. lookups. by case_decide.
Qed.

Lemma manifest_dict_assigned v c v' c' :
  <["current_entry" := c']> (<["entries" := v']> (Spec.manifest_dict v c)) =
    Spec.manifest_dict v' c'.
Proof.
  unfold Spec.manifest_dict. apply map_eq. intros k.
  destruct (decide (k = "entries")) as [->|]; [by lookups|].
  destruct (decide (k = "current_entry")) as [->|]; [by lookups|].
  by rewrite !lookup_insert_ne by done.
Qed.

Lemma manifest_dict_entries_assigned v c v' :
  <["entries" := v']> (Spec.manifest_dict v c) = Spec.manifest_dict v' c.
Proof.
  unfold Spec.manifest_dict. apply map_eq. intros k.
  destruct (decide (k = "entries")) as [->|]; [by lookups|].
  destruct (decide (k = "current_entry")) as [->|]; [by lookups|].
  by rewrite !lookup_insert_ne by done.
Qed.

(** X13.  Which documents [QmdlManifest.from_dict] accepts, and what it
    makes of them.  The call returns exactly on a mapping of the two keys
    [entries] and [current_entry] and no other, where iterating over the
    entries gives mappings of exactly the five field names and the current
    entry is [None] or such a mapping.  The manifest then holds one entry
    object for each of these mappings, in the same order and with the
    same five values, and [None] or the entry object of the current
    entry. *)
Theorem QmdlManifest_from_dict_returns (d : dict) (m : QmdlManifest) :
  fst (QmdlManifest_from_dict d) = Ok m <->
  exists (v c : value) (es : list QmdlManifestEntry),
    d = Spec.manifest_dict v c /\
    iter v = Ok (map Spec.entry_document es) /\
    entries m = VList (map VEntry es) /\
    ((c = VNone /\ current_entry m = VNone) \/
     (exists e, c = Spec.entry_document e /\ current_entry m = VEntry e)).
Proof.
  split.
  - intros Hm.
    destruct (QmdlManifest_from_dict_inv d m Hm)
      as (v & c & es & Hv & Hxs & Hc & [(-> & _ & Hinit)|(e & -> & _ & Hinit)]).
    + exists v, VNone, es.
      pose proof (QmdlManifest_init_fields _ _ Hinit) as [He Hcur].
      revert He Hcur. lookups. rewrite Hc. intros [= He] [= Hcur].
      apply QmdlManifest_init_inv in Hinit.
      assert (size d = 2%nat) as Hsize.
      { rewrite <- (size_insert_present d "entries"
                      (VList (map VEntry es)) v Hv).
        rewrite Hinit. apply size_manifest_dict. }
      split; [by apply manifest_dict_eq|]. repeat split; try done. by left.
    + exists v, (Spec.entry_document e), es.
      pose proof (QmdlManifest_init_fields _ _ Hinit) as [He Hcur].
      revert He Hcur. lookups. intros [= He] [= Hcur].
      apply QmdlManifest_init_inv in Hinit.
      assert (size d = 2%nat) as Hsize.
      { rewrite <- (size_insert_present d "entries"
                      (VList (map VEntry es)) v Hv).
        rewrite <- (size_insert_present _ "current_entry" (VEntry e)
                      (Spec.entry_document e)) by (by lookups).
        rewrite Hinit. apply size_manifest_dict. }
      split; [by apply manifest_dict_eq|]. repeat split; try done.
      right. by exists e.
  - intros (v & c & es & -> & Hxs & Hes & Hcur).
    pose proof (proj2 (mapM_kwargs_documents _ es) eq_refl) as Hmap.
    destruct m as [em cm]. simpl in Hes, Hcur. subst em.
    destruct Hcur as [[-> ->]|(e & -> & ->)].
    + rewrite (manifest_run_none (Spec.manifest_dict v VNone) v _ es
                 eq_refl Hxs Hmap eq_refl). simpl.
      by rewrite manifest_dict_entries_assigned,
        QmdlManifest_init_manifest_dict.
    + rewrite (manifest_run_some
                 (Spec.manifest_dict v (Spec.entry_document e)) v _ es _ e
                 eq_refl Hxs Hmap eq_refl
                 (proj2 (QmdlManifestEntry_kwargs_document _ e) eq_refl)).
      simpl.
      by rewrite manifest_dict_assigned, QmdlManifest_init_manifest_dict.
Qed.

Lemma QmdlManifest_from_dict_returns_witness :
  exists es,
    iter (VList [VDict Spec.example_entry]) = Ok (map Spec.entry_document es) /\
    fst (QmdlManifest_from_dict Spec.duplicated_manifest) =
      Ok {| entries := VList (map VEntry es);
            current_entry :=
              VEntry {| name := VStr "1720000000";
                        start_time := VStr "2024-07-03T10:00:00Z";
                        last_message_time := VStr "2024-07-03T10:05:00Z";
                        qmdl_size_bytes := VInt 4096;
                        analysis_size_bytes := VInt 512 |} |}.
Proof.
  exists [{| name := VStr "1720000000";
             start_time := VStr "2024-07-03T10:00:00Z";
             last_message_time := VStr "2024-07-03T10:05:00Z";
             qmdl_size_bytes := VInt 4096;
             analysis_size_bytes := VInt 512 |}].
  split; [reflexivity|].
  apply (proj2 (QmdlManifest_from_dict_returns _ _)).
  exists (VList [VDict Spec.example_entry]), (VDict Spec.example_entry),
    [{| name := VStr "1720000000";
        start_time := VStr "2024-07-03T10:00:00Z";
        last_message_time := VStr "2024-07-03T10:05:00Z";
        qmdl_size_bytes := VInt 4096;
        analysis_size_bytes := VInt 512 |}].
  split; [reflexivity|]. split; [reflexivity|]. split; [reflexivity|].
  right.
  exists {| name := VStr "1720000000";
            start_time := VStr "2024-07-03T10:00:00Z";
            last_message_time := VStr "2024-07-03T10:05:00Z";
            qmdl_size_bytes := VInt 4096;
            analysis_size_bytes := VInt 512 |}.
  split; reflexivity.
Defined.

(** X14.  What [QmdlManifest.from_dict] refuses, and in which state it
    leaves the mapping.  Without the key [entries] it raises [KeyError].
    When the entries cannot be iterated over, or one of them is not a
    mapping of exactly the five field names, it raises [TypeError]: the
    list is built before it is assigned, so no entry has been replaced.
    In both cases the mapping is unchanged.  Without the key
    [current_entry] it raises [KeyError] after the entries have been
    replaced by entry objects. *)
Theorem QmdlManifest_from_dict_refuses (d : dict) :
  (d !! "entries" = None ->
   QmdlManifest_from_dict d = (Raise KeyError, d)) /\
  (forall v,
     d !! "entries" = Some v ->
     (forall es, iter v <> Ok (map Spec.entry_document es)) ->
     QmdlManifest_from_dict d = (Raise TypeError, d)) /\
  (forall v es,
     d !! "entries" = Some v -> iter v = Ok (map Spec.entry_document es) ->
     d !! "current_entry" = None ->
     QmdlManifest_from_dict d =
       (Raise KeyError, <["entries" := VList (map VEntry es)]> d)).
Proof.
  split; [|split].
  - intros Hv. unfold QmdlManifest_from_dict, bind, getitem. by rewrite Hv.
  - intros v Hv Hbad.
    unfold QmdlManifest_from_dict, bind, getitem, lift. rewrite Hv.
    destruct (iter v) as [xs|e] eqn:Hxs.
    + destruct (mapM QmdlManifestEntry_kwargs xs) as [es|e] eqn:Hes.
      * apply mapM_kwargs_documents in Hes as ->. by destruct (Hbad es).
      * by apply mapM_kwargs_raises in Hes as ->.
    + destruct v; simpl in Hxs; by inversion Hxs.
  - intros v es Hv Hxs Hc.
    pose proof (proj2 (mapM_kwargs_documents _ es) eq_refl) as Hmap.
    unfold QmdlManifest_from_dict, bind, getitem, setitem, lift, modify.
    rewrite Hv, Hxs, Hmap. by rewrite lookup_insert_ne, Hc by done.
Qed.

Lemma QmdlManifest_from_dict_refuses_witness :
  QmdlManifest_from_dict
    (Spec.manifest_dict (VList [VDict Spec.example_entry; VInt 3]) VNone) =
    (Raise TypeError,
     Spec.manifest_dict (VList [VDict Spec.example_entry; VInt 3]) VNone).
Proof.
  refine (proj1 (proj2
            (QmdlManifest_from_dict_refuses
               (Spec.manifest_dict
                  (VList [VDict Spec.example_entry; VInt 3]) VNone)))
            (VList [VDict Spec.example_entry; VInt 3]) eq_refl _).
  by intros [|e1 [|e2 es]].
Defined.

(** X15.  A second call on the same mapping.  After a call of
    [QmdlManifest.from_dict] that returned, the mapping holds entry
    objects, which cannot be unpacked as keyword arguments: a second call
    raises [TypeError] and changes nothing more.  The one exception is
    the manifest without entries and without a current entry, on which
    the second call returns what the first returned. *)
Theorem QmdlManifest_from_dict_twice (d : dict) (m : QmdlManifest) :
  fst (QmdlManifest_from_dict d) = Ok m ->
  (entries m = VList [] /\ current_entry m = VNone ->
   QmdlManifest_from_dict (snd (QmdlManifest_from_dict d)) =
     (Ok m, snd (QmdlManifest_from_dict d))) /\
  (entries m <> VList [] \/ current_entry m <> VNone ->
   QmdlManifest_from_dict (snd (QmdlManifest_from_dict d)) =
     (Raise TypeError, snd (QmdlManifest_from_dict d))).
Proof.
  intros Hm.
  destruct (QmdlManifest_from_dict_inv d m Hm)
    as (v & c & es & Hv & Hxs & Hc
        & [(-> & Hrun & Hinit)|(e & -> & Hrun & Hinit)]);
    rewrite Hrun; simpl;
    pose proof (QmdlManifest_init_fields _ _ Hinit) as [He Hcur];
    revert He Hcur; lookups.
  - rewrite Hc. intros [= He] [= Hcur]. destruct es as [|e0 es].
    + split; [intros _ | intros [H|H]; by destruct H].
      rewrite (manifest_run_none _ (VList []) [] []);
        [|by lookups|done|done|by lookups].
      simpl in *. rewrite insert_insert_eq. by rewrite Hinit.
    + split; [rewrite <- He; by intros [[=] _] | intros _].
      unfold QmdlManifest_from_dict, bind, getitem, lift. by lookups.
  - intros [= He] [= Hcur].
    split; [rewrite <- Hcur; by intros [_ [=]] | intros _].
    destruct es as [|e0 es].
    + rewrite (manifest_current_fails _ (VList []) [] [] (VEntry e) TypeError);
        [|by lookups|done|done|by lookups|done|done].
      simpl. f_equal. apply map_eq. intros k.
      destruct (decide (k = "entries")) as [->|]; [by lookups|].
      by rewrite lookup_insert_ne by done.
    + unfold QmdlManifest_from_dict, bind, getitem, lift. by lookups.
Qed.

Lemma QmdlManifest_from_dict_twice_witness :
  fst (QmdlManifest_from_dict
         (snd (QmdlManifest_from_dict Spec.recording_manifest))) =
    Raise TypeError.
Proof.
  destruct (QmdlManifest_from_dict_twice Spec.recording_manifest
              {| entries := VList [];
                 current_entry :=
                   VEntry {| name := VStr "1720000000";
                             start_time := VStr "2024-07-03T10:00:00Z";
                             last_message_time := VStr "2024-07-03T10:05:00Z";
                             qmdl_size_bytes := VInt 4096;
                             analysis_size_bytes := VInt 512 |} |}
              ltac:(by vm_compute)) as [_ Hraise].
  rewrite Hraise; [reflexivity|]. right. discriminate.
Defined.

End MoreManifest.

(* ===================================================================== *)
(** * api.py: what every call does with the network *)
(* ===================================================================== *)

Section MoreCalls.

Import api.

Variable World : Type.
Variable send : Request -> World -> result Response * World.
Variable urljoin : string -> string -> string.

(** Writing the chunks one after the other gives their concatenation. *)
Lemma fold_left_app_concat (chunks : list (list Byte.byte)) :
  forall buf,
    fold_left (fun buf chunk => (buf ++ chunk)%list) chunks buf =
      (buf ++ concat chunks)%list.
Proof.
  induction chunks as [|chunk chunks IH]; intros buf; simpl.
  - by rewrite app_nil_r.
  - by rewrite IH, app_assoc.
Qed.




(** X17.  The three downloads return the chunks of the response, joined
    in the order in which they came, when the status is let through and
    the iteration ends normally; when the iteration fails, its exception
    comes out and the chunks read so far are lost.  The body is never
    decoded as JSON. *)
Theorem downloads_join_chunks
  (self : RayhunterApi) (c : call) (filename : string) (s : state World)
  (r : Response) (w' : World) :
  c = Get_analysis_report_file filename \/ c = Get_pcap_file filename \/
    c = Get_qmdl_file filename ->
  send (request_of urljoin self c) (world s) = (Ok r, w') ->
  raise_for_status r = Ok tt ->
  fst (run World send urljoin self c s) =
    match iter_error r with
    | Some e => Raise e
    | None => Ok (RBytes (concat (iter_content r)))
    end.
Proof.
  intros Hc Hsend Hstatus.
  destruct Hc as [-> | [-> | ->]]; simpl in Hsend;
    unfold run, fmapM, get_analysis_report_file, get_pcap_file, get_qmdl_file,
      _get_file_content, bind, logging_info, modify, requests_get, request,
      lift, ret; simpl;
    rewrite Hsend; simpl; rewrite Hstatus; simpl;
    unfold read_chunks; rewrite fold_left_app_concat;
    by destruct (iter_error r).
Qed.

(** X18.  [active_recording] tells whether the document has a current
    entry.  When the device serves a manifest document that
    [QmdlManifest.from_dict] accepts, the property is [True] exactly when
    the value under [current_entry] is not [None]; when [from_dict]
    refuses the document, the property raises what [from_dict] raised: it
    does not answer [False]. *)
Theorem active_recording_is_current_entry
  (self : RayhunterApi) (s : state World) (d : dict) :
  Spec.serves send (GET (urljoin (_url self) "/api/qmdl-manifest") false)
    (world s) (VDict d) ->
  (forall m c,
     fst (manifest.QmdlManifest_from_dict d) = Ok m ->
     d !! "current_entry" = Some c ->
     fst (active_recording World send urljoin self s) =
       Ok (manifest.is_not_None c)) /\
  (forall e,
     fst (manifest.QmdlManifest_from_dict d) = Raise e ->
     fst (active_recording World send urljoin self s) = Raise e).
Proof.
  intros Hserves.
  rewrite (active_recording_serves World send urljoin self s _ Hserves).
  simpl. split.
  - intros m c Hm Hc. rewrite Hm. simpl. f_equal.
    destruct (QmdlManifest_from_dict_inv d m Hm)
      as (v & c' & es & _ & _ & Hc'
          & [(-> & _ & Hinit)|(e & -> & _ & Hinit)]);
      rewrite Hc in Hc'; injection Hc' as ->;
      apply QmdlManifest_init_fields in Hinit as [_ Hcur];
      revert Hcur; lookups.
    + rewrite Hc. by intros [= <-].
    + by intros [= <-].
  - intros e He. by rewrite He.
Qed.

(** X19.  A body that is not a JSON object.  For the calls that read a
    document, an exception of the JSON decoder comes out as it is, and a
    body that decodes to anything but an object (a list, a string, a
    number, [null]) makes the call raise [TypeError]. *)
Theorem document_calls_bad_body
  (self : RayhunterApi) (c : call) (s : state World)
  (r : Response) (w' : World) :
  c = Active_recording \/ c = Get_manifest \/ c = System_stats ->
  send (request_of urljoin self c) (world s) = (Ok r, w') ->
  raise_for_status r = Ok tt ->
  (forall e, json r = Raise e ->
     fst (run World send urljoin self c s) = Raise e) /\
  (forall body, json r = Ok body -> (forall d, body <> VDict d) ->
     fst (run World send urljoin self c s) = Raise TypeError).
Proof.
  intros Hc Hsend Hstatus.
  split; [intros e Hjson | intros body Hjson Hbody];
    destruct Hc as [-> | [-> | ->]]; simpl in Hsend;
    unfold run, fmapM, active_recording, get_manifest, system_stats, bind,
      logging_info, modify, requests_get, request, lift, ret; simpl;
    rewrite Hsend; simpl; rewrite Hstatus, Hjson; simpl; try done;
    destruct body; try done; by destruct (Hbody d).
Qed.

(** X20.  Starting and stopping a recording look at the status of the
    response and at nothing else: they raise [HTTPError] for a status
    from 400 to 599 and return [None] for every other, whatever the body
    holds, after one record in the log and one POST request. *)
Theorem recording_calls_outcome
  (self : RayhunterApi) (c : call) (s : state World)
  (r : Response) (w' : World) :
  c = Start_recording \/ c = Stop_recording ->
  send (request_of urljoin self c) (world s) = (Ok r, w') ->
  (exists url, request_of urljoin self c = POST url) /\
  fst (run World send urljoin self c s) =
    (if (400 <=? status_code r) && (status_code r <? 600)
     then Raise (HTTPError (status_code r)) else Ok RNone) /\
  exists msg,
    snd (run World send urljoin self c s) =
      {| world := w'; log := (log s ++ [msg])%list |}.
Proof.
  intros Hc Hsend.
  destruct Hc as [-> | ->]; simpl in Hsend;
    (split; [by eexists|]);
    unfold run, fmapM, start_recording, stop_recording, bind, logging_info,
      modify, requests_post, request, lift, ret, raise_for_status; simpl;
    rewrite Hsend; simpl;
    destruct ((400 <=? status_code r) && (status_code r <? 600)); simpl;
    (split; [done | by eexists]).
Qed.

(** X21.  The client keeps nothing between calls.  What a call returns or
    raises is decided by the response to its one request: two calls that
    get the same response end alike, whatever the log holds and whatever
    was called before.  In particular the assignments that the
    [from_dict] methods make to a decoded document do not reach the next
    call. *)
Theorem run_depends_on_response_only
  (self : RayhunterApi) (c : call) (s1 s2 : state World)
  (r : Response) (w1 w2 : World) :
  send (request_of urljoin self c) (world s1) = (Ok r, w1) ->
  send (request_of urljoin self c) (world s2) = (Ok r, w2) ->
  fst (run World send urljoin self c s1) =
    fst (run World send urljoin self c s2).
Proof.
  intros H1 H2.
  destruct c; simpl in H1, H2;
    unfold run, fmapM, active_recording, get_manifest, get_analysis_report_file,
      get_pcap_file, get_qmdl_file, _get_file_content, start_recording,
      stop_recording, system_stats, bind, logging_info, modify, requests_get,
      requests_post, request, lift, ret; simpl;
    rewrite H1, H2; simpl;
    repeat match goal with
           | |- context [match ?x with Ok _ => _ | Raise _ => _ end] =>
               destruct x; simpl
           end; done.
Qed.

End MoreCalls.

Section MoreCallsExamples.

Import api.


Lemma downloads_join_chunks_witness :
  fst (run unit
         (Spec.always
            {| status_code := 200; json := Raise (RequestException "no JSON");
               iter_content := [[Byte.x61; Byte.x62]; []; [Byte.x63]];
               iter_error := None |})
         Spec.join Spec.device (Get_qmdl_file "1720000000") Spec.start) =
    Ok (RBytes [Byte.x61; Byte.x62; Byte.x63]).
Proof.
  exact (downloads_join_chunks unit _ Spec.join Spec.device
           (Get_qmdl_file "1720000000") "1720000000" Spec.start
           {| status_code := 200; json := Raise (RequestException "no JSON");
              iter_content := [[Byte.x61; Byte.x62]; []; [Byte.x63]];
              iter_error := None |} tt
           (or_intror (or_intror eq_refl)) eq_refl eq_refl).
Defined.

Lemma active_recording_is_current_entry_witness :
  fst (active_recording unit
         (Spec.always (Spec.answer 200 (Ok (VDict Spec.broken_manifest))))
         Spec.join Spec.device Spec.start) = Raise TypeError.
Proof.
  refine (proj2 (active_recording_is_current_entry unit
                   (Spec.always
                      (Spec.answer 200 (Ok (VDict Spec.broken_manifest))))
                   Spec.join Spec.device Spec.start Spec.broken_manifest _)
            TypeError _).
  - eexists _, _. split; [reflexivity|]. split; reflexivity.
  - by vm_compute.
Defined.

Lemma document_calls_bad_body_witness :
  fst (run unit (Spec.always (Spec.answer 200 (Ok (VList []))))
         Spec.join Spec.device System_stats Spec.start) = Raise TypeError.
Proof.
  refine (proj2 (document_calls_bad_body unit
                   (Spec.always (Spec.answer 200 (Ok (VList []))))
                   Spec.join Spec.device System_stats Spec.start
                   (Spec.answer 200 (Ok (VList []))) tt
                   (or_intror (or_intror eq_refl)) eq_refl eq_refl)
            (VList []) eq_refl _).
  discriminate.
Defined.

Lemma recording_calls_outcome_witness :
  fst (run unit (Spec.always (Spec.answer 204 (Raise (RequestException "no JSON"))))
         Spec.join Spec.device Start_recording Spec.start) = Ok RNone.
Proof.
  exact (proj1 (proj2 (recording_calls_outcome unit
                         (Spec.always
                            (Spec.answer 204
                               (Raise (RequestException "no JSON"))))
                         Spec.join Spec.device Start_recording Spec.start
                         (Spec.answer 204 (Raise (RequestException "no JSON")))
                         tt (or_introl eq_refl) eq_refl))).
Defined.

Lemma run_depends_on_response_only_witness :
  fst (run unit
         (Spec.always (Spec.answer 200 (Ok (VDict Spec.example_system))))
         Spec.join Spec.device System_stats
         {| world := tt; log := ["Fetching system stats from: earlier"] |}) =
  fst (run unit
         (Spec.always (Spec.answer 200 (Ok (VDict Spec.example_system))))
         Spec.join Spec.device System_stats Spec.start).
Proof.
  exact (run_depends_on_response_only unit
           (Spec.always (Spec.answer 200 (Ok (VDict Spec.example_system))))
           Spec.join Spec.device System_stats
           {| world := tt; log := ["Fetching system stats from: earlier"] |}
           Spec.start
           (Spec.answer 200 (Ok (VDict Spec.example_system))) tt tt
           eq_refl eq_refl).
Defined.

End MoreCallsExamples.
